(** * sparkify-s3: the ETL of [etl.py], embedded and verified

    [etl.py] is a PySpark job.  It reads two collections of JSON records
    (song metadata and listening events), builds four dimension tables and
    one fact table with DataFrame operations, and writes each of them as a
    partitioned parquet dataset.

    The embedding has three layers:
    - the data model of Spark SQL that the script relies on (cell values,
      rows, partitioned DataFrames, column expressions);
    - the DataFrame methods and SQL functions the script calls, each a
      function that either returns or raises what PySpark raises;
    - the two functions of the script, [process_song_data] and
      [process_log_data], over a file system threaded through a state and
      exception monad, together with the table expressions they are made of. *)

From Stdlib Require Import ZArith Lia SpecFloat Ascii String.
From stdpp Require Import base decidable option list sorting gmap strings pretty.

Local Open Scope string_scope.
Local Open Scope list_scope.
Local Open Scope Z_scope.

(** ** Python exceptions and results *)

Inductive exn :=
| UnboundLocalError (var : string)
| AttributeError (attr : string)
| TypeError (msg : string)
| AnalysisException (msg : string).

(** [UnboundLocalError] is a subclass of [NameError]. *)
Definition is_NameError (e : exn) : bool :=
  match e with UnboundLocalError _ => true | _ => false end.

Inductive result (A : Type) :=
| Ok (a : A)
| Raise (e : exn).
Arguments Ok {A} a.
Arguments Raise {A} e.

#[global] Instance result_ret : MRet result := @Ok.
#[global] Instance result_bind : MBind result := λ A B f m,
  match m with Ok a => f a | Raise e => Raise e end.

(** ** Cell values

    A cell of a DataFrame is null or a value of one of the SQL types the
    script meets: boolean (the value of a comparison), string, 64-bit
    integer, binary64 float and timestamp (microseconds since the epoch). *)

Inductive value :=
| Null
| Bool (b : bool)
| Str (s : string)
| Long (n : Z)
| Double (d : spec_float)
| Timestamp (micros : Z).

#[global] Instance spec_float_eq_dec : EqDecision spec_float.
Proof. solve_decision. Defined.
#[global] Instance value_eq_dec : EqDecision value.
Proof. solve_decision. Defined.

(** ** Rows

    A row is a [pyspark.sql.Row]: the cells with their field names.  Reading
    a field the record does not have gives null, as the JSON reader does for
    a record that lacks a field of the inferred schema. *)

Definition Row := list (string * value).

Fixpoint field (c : string) (r : Row) : option value :=
  match r with
  | [] => None
  | (k, v) :: r' => if decide (k = c) then Some v else field c r'
  end.

Definition get (r : Row) (c : string) : value := default Null (field c r).

(** [withColumn] on one row: replace the cell in place when the column
    exists, append it otherwise. *)
Fixpoint set_field (c : string) (v : value) (r : Row) : Row :=
  match r with
  | [] => [(c, v)]
  | (k, w) :: r' => if decide (k = c) then (k, v) :: r' else (k, w) :: set_field c v r'
  end.

Definition null_row (cols : list string) : Row := (λ c, (c, Null)) <$> cols.

(** ** DataFrames

    A DataFrame is a schema and rows spread over partitions.  The order of
    the partitions and of the rows in one partition is the order in which
    the tasks see them; only [monotonically_increasing_id] observes it. *)

Record DataFrame := mkDataFrame {
  columns : list string;
  partitions : list (list Row)
}.

Definition rows (df : DataFrame) : list Row := concat (partitions df).

(** Rows follow the schema. *)
Definition conforms (df : DataFrame) : Prop :=
  Forall (λ r, r.*1 = columns df) (rows df).

(** ** The session

    What the script gets from the runtime and does not choose: how a
    shuffle (a join, a deduplication, a scan of files) spreads rows over
    partitions, and the session time zone, given as the offset from UTC in
    seconds at an instant given in epoch seconds. *)

Record SparkSession := mkSparkSession {
  shuffle : list Row → list (list Row);
  shuffle_perm : ∀ l, concat (shuffle l) ≡ₚ l;
  timeZone : Z → Z
}.

(** ** Binary64 arithmetic

    [df.ts / 1000.0] is a division of doubles and the cast of its result to
    a timestamp multiplies by a million and truncates, so the model keeps
    doubles as IEEE 754 binary64 values. *)

Module Binary64.
Definition prec : Z := 53.
Definition emax : Z := 1024.

Definition of_Z (n : Z) : spec_float := binary_normalize prec emax n 0 false.
Definition div : spec_float → spec_float → spec_float := SFdiv prec emax.
Definition mul : spec_float → spec_float → spec_float := SFmul prec emax.
Definition eqb : spec_float → spec_float → bool := SFeqb.

Definition is_zero (d : spec_float) : bool :=
  match d with S754_zero _ => true | _ => false end.
Definition is_nan (d : spec_float) : bool :=
  match d with S754_nan => true | _ => false end.

Definition Long_MAX : Z := 2 ^ 63 - 1.
Definition Long_MIN : Z := - 2 ^ 63.

(** Scala's [Double.toLong]: truncation toward zero, saturating, and 0
    for a NaN. *)
Definition toLong (d : spec_float) : Z :=
  match d with
  | S754_zero _ | S754_nan => 0
  | S754_infinity s => if s then Long_MIN else Long_MAX
  | S754_finite s m e =>
      let a := if 0 <=? e then Z.pos m * 2 ^ e else Z.pos m / 2 ^ (- e) in
      let v := if s then - a else a in
      Z.max Long_MIN (Z.min Long_MAX v)
  end.
End Binary64.

(** ** The calendar of the SQL date functions

    Days are counted from 1970-01-01, a Thursday, in the proleptic Gregorian
    calendar. *)

Module Calendar.
Definition MICROS_PER_SECOND : Z := 1000000.
Definition SECONDS_PER_DAY : Z := 86400.

(** Year, month and day of an epoch day. *)
Definition civil (day : Z) : Z * Z * Z :=
  let z := day + 719468 in
  let era := z / 146097 in
  let doe := z - era * 146097 in
  let yoe := (doe - doe / 1460 + doe / 36524 - doe / 146096) / 365 in
  let doy := doe - (365 * yoe + yoe / 4 - yoe / 100) in
  let mp := (5 * doy + 2) / 153 in
  let d := doy - (153 * mp + 2) / 5 + 1 in
  let m := if mp <? 10 then mp + 3 else mp - 9 in
  (yoe + era * 400 + (if m <=? 2 then 1 else 0), m, d).

(** The epoch day of a date. *)
Definition days_from_civil (y m d : Z) : Z :=
  let y' := if m <=? 2 then y - 1 else y in
  let era := y' / 400 in
  let yoe := y' - era * 400 in
  let mp := if 2 <? m then m - 3 else m + 9 in
  let doy := (153 * mp + 2) / 5 + d - 1 in
  era * 146097 + (yoe * 365 + yoe / 4 - yoe / 100 + doy) - 719468.

Inductive day_name := Sunday | Monday | Tuesday | Wednesday | Thursday | Friday | Saturday.

(** The name of an epoch day: day 0 is a Thursday. *)
Definition name_of_day (day : Z) : day_name :=
  match (day + 4) mod 7 with
  | 0 => Sunday | 1 => Monday | 2 => Tuesday | 3 => Wednesday
  | 4 => Thursday | 5 => Friday | _ => Saturday
  end.

(** [dayofweek] numbers the days from Sunday. *)
Definition number_of_name (n : day_name) : Z :=
  match n with
  | Sunday => 1 | Monday => 2 | Tuesday => 3 | Wednesday => 4
  | Thursday => 5 | Friday => 6 | Saturday => 7
  end.

(** ISO 8601: weeks start on Monday and belong to the year of their
    Thursday. *)
Definition iso_weekday (day : Z) : Z := (day + 3) mod 7 + 1.

Definition iso_week (day : Z) : Z :=
  let thursday := day - iso_weekday day + 4 in
  let '(y, _, _) := civil thursday in
  (thursday - days_from_civil y 1 1) / 7 + 1.

(** The wall clock of the session at an instant. *)
Definition local_seconds (tz : Z → Z) (micros : Z) : Z :=
  let s := micros / MICROS_PER_SECOND in s + tz s.

Definition local_day (tz : Z → Z) (micros : Z) : Z :=
  local_seconds tz micros / SECONDS_PER_DAY.

Definition hour_of (tz : Z → Z) (micros : Z) : Z :=
  (local_seconds tz micros mod SECONDS_PER_DAY) / 3600.
Definition minute_of (tz : Z → Z) (micros : Z) : Z :=
  (local_seconds tz micros mod 3600) / 60.
Definition second_of (tz : Z → Z) (micros : Z) : Z :=
  local_seconds tz micros mod 60.
Definition year_of (tz : Z → Z) (micros : Z) : Z := (civil (local_day tz micros)).1.1.
Definition month_of (tz : Z → Z) (micros : Z) : Z := (civil (local_day tz micros)).1.2.
Definition dayofmonth_of (tz : Z → Z) (micros : Z) : Z := (civil (local_day tz micros)).2.
Definition weekofyear_of (tz : Z → Z) (micros : Z) : Z := iso_week (local_day tz micros).
Definition dayofweek_of (tz : Z → Z) (micros : Z) : Z :=
  number_of_name (name_of_day (local_day tz micros)).
End Calendar.

(** ** Column expressions

    The constructors are the functions of [pyspark.sql.functions] and the
    operators of [Column] that the script uses.  [col c] is also what the
    attribute [df.c] denotes. *)

Inductive Column :=
| col (name : string)
| lit (v : value)
| EqualTo (a b : Column)
| Divide (a b : Column)
| to_timestamp (c : Column)
| hour (c : Column)
| dayofmonth (c : Column)
| weekofyear (c : Column)
| month (c : Column)
| year (c : Column)
| dayofweek (c : Column)
| DateFormat (c : Column) (fmt : string)
| monotonically_increasing_id.

Infix "==." := EqualTo (at level 70, no associativity).
Infix "/." := Divide (at level 40, left associativity).

(** The columns an expression reads. *)
Fixpoint references (c : Column) : list string :=
  match c with
  | col n => [n]
  | lit _ | monotonically_increasing_id => []
  | EqualTo a b | Divide a b => references a ++ references b
  | to_timestamp a | hour a | dayofmonth a | weekofyear a | month a | year a
  | dayofweek a | DateFormat a _ => references a
  end.

Module Sql.
Definition as_double (v : value) : option spec_float :=
  match v with
  | Long n => Some (Binary64.of_Z n)
  | Double d => Some d
  | _ => None
  end.

(** [a == b]: null when an operand is null.  The script compares strings
    with strings; numbers are compared as doubles, and values of other
    unlike types are not comparable (null). *)
Definition equal_to (a b : value) : value :=
  match a, b with
  | Null, _ | _, Null => Null
  | Str s, Str t => Bool (bool_decide (s = t))
  | Bool x, Bool y => Bool (bool_decide (x = y))
  | Long x, Long y => Bool (x =? y)
  | Timestamp x, Timestamp y => Bool (x =? y)
  | _, _ =>
      match as_double a, as_double b with
      | Some x, Some y => Bool (bool_decide (x = y) || Binary64.eqb x y)
      | _, _ => Null
      end
  end.

(** [a / b] is a division of doubles; null for a null operand and for a
    zero divisor. *)
Definition divide (a b : value) : value :=
  match as_double a, as_double b with
  | Some x, Some y => if Binary64.is_zero y then Null else Double (Binary64.div x y)
  | _, _ => Null
  end.

(** The cast of a number of seconds to a timestamp. *)
Definition cast_timestamp (v : value) : value :=
  match v with
  | Timestamp t => Timestamp t
  | Long n => Timestamp (n * Calendar.MICROS_PER_SECOND)
  | Double d =>
      match d with
      | S754_nan | S754_infinity _ => Null
      | _ => Timestamp (Binary64.toLong
               (Binary64.mul d (Binary64.of_Z Calendar.MICROS_PER_SECOND)))
      end
  | _ => Null
  end.

Definition on_timestamp (f : Z → Z) (v : value) : value :=
  match v with
  | Timestamp t => Long (f t)
  | _ => Null
  end.

(** [date_format]: the numeric fields of the pattern language ([y], [M],
    [d], [H], [m], [s], each padded with zeros to the length of its run);
    every other character stands for itself. *)
Definition pad (width : nat) (n : Z) : string :=
  let s := pretty n in
  String.concat "" (replicate (width - String.length s) "0") +:+ s.

Definition pattern_field (tz : Z → Z) (t : Z) (a : ascii) : option Z :=
  if decide (a = "y"%char) then Some (Calendar.year_of tz t)
  else if decide (a = "M"%char) then Some (Calendar.month_of tz t)
  else if decide (a = "d"%char) then Some (Calendar.dayofmonth_of tz t)
  else if decide (a = "H"%char) then Some (Calendar.hour_of tz t)
  else if decide (a = "m"%char) then Some (Calendar.minute_of tz t)
  else if decide (a = "s"%char) then Some (Calendar.second_of tz t)
  else None.

Definition flush (tz : Z → Z) (t : Z) (run : option (ascii * nat)) : string :=
  match run with
  | None => ""
  | Some (a, n) =>
      match pattern_field tz t a with
      | Some z => pad n z
      | None => String.concat "" (replicate n (String a ""))
      end
  end.

Fixpoint format_from (tz : Z → Z) (t : Z) (run : option (ascii * nat)) (fmt : string) : string :=
  match fmt with
  | "" => flush tz t run
  | String a fmt' =>
      match run with
      | Some (b, n) =>
          if decide (a = b) then format_from tz t (Some (b, S n)) fmt'
          else flush tz t run +:+ format_from tz t (Some (a, 1%nat)) fmt'
      | None => format_from tz t (Some (a, 1%nat)) fmt'
      end
  end.

Definition format (tz : Z → Z) (fmt : string) (v : value) : value :=
  match v with
  | Timestamp t => Str (format_from tz t None fmt)
  | _ => Null
  end.

(** [monotonically_increasing_id]: the partition index in the upper bits
    and the number of the record in its partition in the lower 33 bits,
    in 64-bit arithmetic. *)
Definition wrap64 (z : Z) : Z := (z + 2 ^ 63) mod 2 ^ 64 - 2 ^ 63.

Definition monotonic_id (partition index : nat) : Z :=
  wrap64 (wrap64 (Z.shiftl (Z.of_nat partition) 33) + Z.of_nat index).
End Sql.

(** The value of an expression on the row [r], the [i]-th of partition [p]. *)
Fixpoint eval (spark : SparkSession) (p i : nat) (r : Row) (c : Column) : value :=
  match c with
  | col n => get r n
  | lit v => v
  | EqualTo a b => Sql.equal_to (eval spark p i r a) (eval spark p i r b)
  | Divide a b => Sql.divide (eval spark p i r a) (eval spark p i r b)
  | to_timestamp a => Sql.cast_timestamp (eval spark p i r a)
  | hour a => Sql.on_timestamp (Calendar.hour_of (timeZone spark)) (eval spark p i r a)
  | dayofmonth a => Sql.on_timestamp (Calendar.dayofmonth_of (timeZone spark)) (eval spark p i r a)
  | weekofyear a => Sql.on_timestamp (Calendar.weekofyear_of (timeZone spark)) (eval spark p i r a)
  | month a => Sql.on_timestamp (Calendar.month_of (timeZone spark)) (eval spark p i r a)
  | year a => Sql.on_timestamp (Calendar.year_of (timeZone spark)) (eval spark p i r a)
  | dayofweek a => Sql.on_timestamp (Calendar.dayofweek_of (timeZone spark)) (eval spark p i r a)
  | DateFormat a fmt => Sql.format (timeZone spark) fmt (eval spark p i r a)
  | monotonically_increasing_id => Long (Sql.monotonic_id p i)
  end.

(** [date_format(date, format)] has two required parameters: a call that
    passes no [format] raises [TypeError] before any Column is built. *)
Definition date_format (date : Column) (format : option string) : result Column :=
  match format with
  | Some fmt => Ok (DateFormat date fmt)
  | None => Raise (TypeError "date_format() missing 1 required positional argument: 'format'")
  end.

(** ** DataFrame methods *)

Inductive dropna_how := any | all.
Inductive join_how := inner | left.

Module DF.
(** Names are resolved against the schema: an unknown name and a name
    that two columns carry are both analysis errors.  Names are compared
    as they are written; the script writes them as the data has them. *)
Definition resolve_name (cols : list string) (c : string) : result unit :=
  match length (filter (λ x, x = c) cols) with
  | O => Raise (AnalysisException ("cannot resolve '" +:+ c +:+ "' given input columns"))
  | S O => Ok ()
  | _ => Raise (AnalysisException ("Reference '" +:+ c +:+ "' is ambiguous"))
  end.

Fixpoint resolve_names (cols : list string) (cs : list string) : result unit :=
  match cs with
  | [] => Ok ()
  | c :: cs' => resolve_name cols c ;; resolve_names cols cs'
  end.

Definition resolve (cols : list string) (e : Column) : result unit :=
  resolve_names cols (references e).

Fixpoint deterministic (e : Column) : bool :=
  match e with
  | monotonically_increasing_id => false
  | col _ | lit _ => true
  | EqualTo a b | Divide a b => deterministic a && deterministic b
  | to_timestamp a | hour a | dayofmonth a | weekofyear a | month a | year a
  | dayofweek a | DateFormat a _ => deterministic a
  end.

(** [df.name] *)
Definition getattr (df : DataFrame) (name : string) : result Column :=
  if decide (name ∈ columns df) then Ok (col name)
  else Raise (AttributeError ("'DataFrame' object has no attribute '" +:+ name +:+ "'")).

(** The rows of every partition with their positions. *)
Definition mapi_rows (f : nat → nat → Row → Row) (parts : list (list Row)) : list (list Row) :=
  imap (λ p part, imap (f p) part) parts.

(** [df.filter(condition)] keeps the rows on which the condition is true. *)
Definition filter (spark : SparkSession) (condition : Column) (df : DataFrame) : result DataFrame :=
  resolve (columns df) condition ;;
  Ok {| columns := columns df;
        partitions :=
          imap (λ p part,
                  (imap pair part : list (nat * Row))
                    ≫= (λ ir, if decide (eval spark p ir.1 ir.2 condition = Bool true)
                              then [ir.2] else []))
               (partitions df) |}.

(** A cell counts for [dropna] when it is neither null nor NaN. *)
Definition present (v : value) : bool :=
  match v with
  | Null => false
  | Double d => negb (Binary64.is_nan d)
  | _ => true
  end.

Definition non_nulls (subset : list string) (r : Row) : nat :=
  length (List.filter present (get r <$> subset)).

(** [df.dropna(how, subset)] keeps the rows with enough cells of [subset]
    present: all of them for ['any'], one for ['all']. *)
Definition dropna (how : dropna_how) (subset : list string) (df : DataFrame) : result DataFrame :=
  resolve_names (columns df) subset ;;
  let thresh := match how with any => length subset | all => 1%nat end in
  Ok {| columns := columns df;
        partitions := List.filter (λ r, thresh <=? non_nulls subset r)%nat <$> partitions df |}.

Definition project (cols : list string) (r : Row) : Row := (λ c, (c, get r c)) <$> cols.

(** [df.select(cols)] for a list of column names. *)
Definition select (cols : list string) (df : DataFrame) : result DataFrame :=
  resolve_names (columns df) cols ;;
  Ok {| columns := cols; partitions := (fmap (project cols) : list Row → list Row) <$> partitions df |}.

(** [df.dropDuplicates()] keeps one row of each class of equal rows; it
    shuffles. *)
Definition dropDuplicates (spark : SparkSession) (df : DataFrame) : result DataFrame :=
  Ok {| columns := columns df; partitions := shuffle spark (remove_dups (rows df)) |}.

(** [df.withColumn(name, e)] replaces the column of that name or adds one. *)
Definition withColumn (spark : SparkSession) (name : string) (e : Column) (df : DataFrame)
  : result DataFrame :=
  resolve (columns df) e ;;
  Ok {| columns := if decide (name ∈ columns df) then columns df else columns df ++ [name];
        partitions := mapi_rows (λ p i r, set_field name (eval spark p i r e) r) (partitions df) |}.

(** The rows one row of the left side gives in a join. *)
Definition matches (spark : SparkSession) (on : Column) (right : list Row) (l : Row) : list Row :=
  List.filter (λ r, bool_decide (eval spark 0 0 (l ++ r) on = Bool true)) right.

Definition join_row (spark : SparkSession) (on : Column) (how : join_how)
    (right_columns : list string) (right : list Row) (l : Row) : list Row :=
  match matches spark on right l, how with
  | [], left => [l ++ null_row right_columns]
  | ms, _ => (λ r, l ++ r) <$> ms
  end.

(** [df.join(other, on, how)] with a condition over the columns of both
    sides; it shuffles. *)
Definition join (spark : SparkSession) (df other : DataFrame) (on : Column) (how : join_how)
  : result DataFrame :=
  resolve (columns df ++ columns other) on ;;
  (if deterministic on then Ok ()
   else Raise (AnalysisException "nondeterministic expressions are not allowed in a join condition")) ;;
  Ok {| columns := columns df ++ columns other;
        partitions :=
          shuffle spark (rows df ≫= join_row spark on how (columns other) (rows other)) |}.

(** An argument of [selectExpr] as the script writes them: a column name,
    or [name as alias]. *)
Definition parse_expr (e : string) : string * string :=
  match String.index 0 " as " e with
  | Some i => (String.substring 0 i e,
               String.substring (i + 4) (String.length e - (i + 4)) e)
  | None => (e, e)
  end.

Definition selectExpr (exprs : list string) (df : DataFrame) : result DataFrame :=
  let named := parse_expr <$> exprs in
  resolve_names (columns df) (named.*1) ;;
  Ok {| columns := named.*2;
        partitions :=
          (fmap (λ r, (λ ne : string * string, (ne.2, get r ne.1)) <$> named)
             : list Row → list Row) <$> partitions df |}.
End DF.

(** ** The file system

    A path holds a dataset: its schema, its rows and the columns its
    directories are partitioned by (none for the JSON inputs). *)

Record Dataset := mkDataset {
  partitionBy : list string;
  schema : list string;
  records : list Row
}.

Abbreviation FileSystem := (gmap string Dataset).

(** A computation reads and writes the file system and returns or raises. *)
Definition M (A : Type) : Type := FileSystem → FileSystem * result A.

#[global] Instance M_ret : MRet M := λ A a fs, (fs, Ok a).
#[global] Instance M_bind : MBind M := λ A B f m fs,
  match m fs with
  | (fs', Ok a) => f a fs'
  | (fs', Raise e) => (fs', Raise e)
  end.

Definition lift {A} (r : result A) : M A := λ fs, (fs, r).

Inductive SaveMode := overwrite | append | ignore | errorifexists.

Module IO.
Definition path_not_found {A} (path : string) : result A :=
  Raise (AnalysisException ("Path does not exist: " +:+ path)).

(** [spark.read.json(path)] *)
Definition read_json (spark : SparkSession) (path : string) : M DataFrame := λ fs,
  match fs !! path with
  | Some d => (fs, Ok {| columns := schema d; partitions := shuffle spark (records d) |})
  | None => (fs, path_not_found path)
  end.

(** [spark.read.parquet(path)]: the partition columns come back from the
    directory names, after the columns of the files.  Their values are
    given back as they were written. *)
Definition read_parquet (spark : SparkSession) (path : string) : M DataFrame := λ fs,
  match fs !! path with
  | Some d =>
      let cols := filter (λ c, c ∉ partitionBy d) (schema d) ++ partitionBy d in
      (fs, Ok {| columns := cols;
                 partitions := shuffle spark (DF.project cols <$> records d) |})
  | None => (fs, path_not_found path)
  end.

(** [df.write.mode(mode).partitionBy(cols).parquet(path)] *)
Definition write_parquet (mode : SaveMode) (cols : list string) (path : string) (df : DataFrame)
  : M unit := λ fs,
  match DF.resolve_names (columns df) cols with
  | Raise e => (fs, Raise e)
  | Ok _ =>
      let d := {| partitionBy := cols; schema := columns df; records := rows df |} in
      match mode, fs !! path with
      | overwrite, _ | _, None => (<[path := d]> fs, Ok ())
      | append, Some old =>
          (<[path := {| partitionBy := partitionBy old; schema := schema old;
                        records := records old ++ rows df |}]> fs, Ok ())
      | ignore, Some _ => (fs, Ok ())
      | errorifexists, Some _ =>
          (fs, Raise (AnalysisException ("path " +:+ path +:+ " already exists.")))
      end
  end.
End IO.

(** Reading a local variable of a Python function: a name that is assigned
    somewhere in the function and has no value yet is unbound. *)
Definition load_fast {A} (name : string) (local : option A) : result A :=
  match local with
  | Some a => Ok a
  | None => Raise (UnboundLocalError name)
  end.

(** * The script *)

(** ** [process_song_data] *)

Definition song_table_schema : list string :=
  ["song_id"; "title"; "artist_id"; "year"; "duration"].

Definition songs_table (spark : SparkSession) (df : DataFrame) : result DataFrame :=
  t ← DF.dropna any ["song_id"; "artist_id"] df;
  t ← DF.select song_table_schema t;
  DF.dropDuplicates spark t.

Definition artist_table_schema : list string :=
  ["artist_id"; "artist_name"; "artist_location"; "artist_latitude"; "artist_longitude"].

Definition artists_table (spark : SparkSession) (df : DataFrame) : result DataFrame :=
  t ← DF.dropna any ["song_id"; "artist_id"] df;
  t ← DF.select artist_table_schema t;
  DF.dropDuplicates spark t.

Definition process_song_data (spark : SparkSession) (input_data output_data : string) : M unit :=
  let song_data := input_data +:+ "song_data" in
  df ← IO.read_json spark song_data;
  songs_table ← lift (songs_table spark df);
  IO.write_parquet overwrite ["year"; "artist_id"] (output_data +:+ "songs.parquet") songs_table ;;
  artists_table ← lift (artists_table spark df);
  IO.write_parquet overwrite ["artist_location"] (output_data +:+ "artists.parquet") artists_table.

(** ** [process_log_data] *)

Definition users_table_schema : list string :=
  ["userId"; "firstName"; "lastName"; "gender"; "level"].

Definition users_table (spark : SparkSession) (df : DataFrame) : result DataFrame :=
  t ← DF.dropna any ["userId"; "firstName"] df;
  t ← DF.select users_table_schema t;
  DF.dropDuplicates spark t.

(** Line 72: [df.withColumn("start_time", to_timestamp(df.ts / 1000.0))] *)
Definition with_start_time (spark : SparkSession) (df : DataFrame) : result DataFrame :=
  ts ← DF.getattr df "ts";
  DF.withColumn spark "start_time" (to_timestamp (ts /. lit (Double (Binary64.of_Z 1000)))) df.

(** Lines 75-82: the time table, from the [df] of line 72. *)
Definition time_table (spark : SparkSession) (df : DataFrame) : result DataFrame :=
  t ← DF.select ["start_time"] df;
  t ← DF.dropDuplicates spark t;
  start_time ← DF.getattr df "start_time";
  t ← DF.withColumn spark "hour" (hour start_time) t;
  start_time ← DF.getattr df "start_time";
  t ← DF.withColumn spark "day" (dayofmonth start_time) t;
  start_time ← DF.getattr df "start_time";
  t ← DF.withColumn spark "week" (weekofyear start_time) t;
  start_time ← DF.getattr df "start_time";
  t ← DF.withColumn spark "month" (month start_time) t;
  start_time ← DF.getattr df "start_time";
  t ← DF.withColumn spark "year" (year start_time) t;
  start_time ← DF.getattr df "start_time";
  DF.withColumn spark "weekday" (dayofweek start_time) t.

(** Line 92: [df.join(songs_df, df.song == songs_df.title, how='left')] *)
Definition songplays_joined (spark : SparkSession) (df songs_df : DataFrame) : result DataFrame :=
  song ← DF.getattr df "song";
  title ← DF.getattr songs_df "title";
  DF.join spark df songs_df (song ==. title) left.

(** Lines 92-93: the join, then
    [.withColumn('songplay_id', monotonically_increasing_id())] *)
Definition songplays_keyed (spark : SparkSession) (df songs_df : DataFrame) : result DataFrame :=
  t ← songplays_joined spark df songs_df;
  DF.withColumn spark "songplay_id" monotonically_increasing_id t.

(** The whole expression of the songplays table, lines 92-99.  On line 94
    [date_format] is called with the column alone.  [df.start_time],
    [df.song] and the like are read as the column of that name. *)
Definition songplays_table (spark : SparkSession) (df songs_df : DataFrame) : result DataFrame :=
  t ← songplays_keyed spark df songs_df;
  start_time ← DF.getattr df "start_time";
  formatted ← date_format start_time None;
  t ← DF.withColumn spark "start_time" formatted t;
  start_time ← DF.getattr df "start_time";
  t ← DF.withColumn spark "month" (month start_time) t;
  start_time ← DF.getattr df "start_time";
  t ← DF.withColumn spark "year" (year start_time) t;
  DF.selectExpr ["songplay_id"; "start_time"; "year"; "month"; "userId as user_id"; "level";
                 "song_id"; "artist_id"; "sessionId as session_id"; "location";
                 "userAgent as user_agent"] t.

Definition process_log_data (spark : SparkSession) (input_data output_data : string) : M unit :=
  let log_data := input_data +:+ "log_data" in
  (* [df] is a local variable of the function: unbound until the
     assignment of line 59 completes *)
  let df : option DataFrame := None in
  (* line 59: [spark.read.json(log_data)], then the argument of [filter],
     [df.page == 'NextSong'], then the call and the assignment *)
  events ← IO.read_json spark log_data;
  df_read ← lift (load_fast "df" df);
  page ← lift (DF.getattr df_read "page");
  df ← lift (DF.filter spark (page ==. lit (Str "NextSong")) events);
  users_table ← lift (users_table spark df);
  IO.write_parquet overwrite ["gender"] (output_data +:+ "users.parquet") users_table ;;
  df ← lift (with_start_time spark df);
  time_table ← lift (time_table spark df);
  IO.write_parquet overwrite ["year"; "month"] (output_data +:+ "time.parquet") time_table ;;
  songs_df ← IO.read_parquet spark (output_data +:+ "songs.parquet");
  songplays_table ← lift (songplays_table spark df songs_df);
  IO.write_parquet overwrite ["year"; "month"] (output_data +:+ "songplays.parquet") songplays_table.

(** ** [main] *)

(** What [config.read('dl.cfg')] finds: no file (which [read] passes over),
    a file that does not parse, or the sections of a file, each with its
    options. *)
Inductive ConfigFile :=
| NoFile
| Malformed
| Sections (sections : gmap string (gmap string string)).

(** [config[name]] is a section proxy, never a string. *)
Record SectionProxy := mkSectionProxy { section_name : string }.

Inductive pyobj :=
| PyStr (s : string)
| PyProxy (p : SectionProxy).

(** What [main] can raise: the exceptions of [configparser] and of the
    mapping protocol, and those of the functions it calls. *)
Inductive py_exn :=
| ConfigParserError
| KeyError (key : string)
| Raised (e : exn).

Inductive outcome (A : Type) :=
| Returns (a : A)
| Raises (e : py_exn).
Arguments Returns {A} a.
Arguments Raises {A} e.

(** The process: its environment variables and the data it can reach. *)
Record World := mkWorld {
  environ : gmap string string;
  files : gmap string Dataset
}.

Definition P (A : Type) : Type := World → World * outcome A.

#[global] Instance P_ret : MRet P := λ A a w, (w, Returns a).
#[global] Instance P_bind : MBind P := λ A B f m w,
  match m w with
  | (w', Returns a) => f a w'
  | (w', Raises e) => (w', Raises e)
  end.

Module Config.
(** [config = configparser.ConfigParser(); config.read('dl.cfg')]: the
    sections the parser holds afterwards. *)
Definition read (file : ConfigFile) : P (gmap string (gmap string string)) := λ w,
  match file with
  | NoFile => (w, Returns ∅)
  | Malformed => (w, Raises ConfigParserError)
  | Sections s => (w, Returns s)
  end.

(** [config[key]]: the default section is always there, another one must
    have been read. *)
Definition getitem (config : gmap string (gmap string string)) (key : string) : P SectionProxy := λ w,
  if decide (key ≠ "DEFAULT" ∧ config !! key = None)
  then (w, Raises (KeyError key))
  else (w, Returns {| section_name := key |}).
End Config.

(** [os.environ[key] = value]: the value must be a [str]. *)
Definition environ_setitem (key : string) (value : pyobj) : P unit := λ w,
  match value with
  | PyStr s => ({| environ := <[key := s]> (environ w); files := files w |}, Returns ())
  | PyProxy _ => (w, Raises (Raised (TypeError "str expected, not SectionProxy")))
  end.

(** [SparkSession.builder.config(...).getOrCreate()]: the cluster gives the
    session for the configuration the builder holds. *)
Definition create_spark_session (cluster : gmap string string → SparkSession) : SparkSession :=
  cluster {[ "spark.jars.packages" := "org.apache.hadoop:hadoop-aws:2.7.0" ]}.

(** A call [f(spark, input_data, output_data)] of one of the two functions of
    the script with section proxies for the two roots, as [main] makes it:
    the first statement of either function is [input_data + '...'], and a
    section proxy has no [+] with a string. *)
Definition call_with_proxies (f : SparkSession → string → string → M unit)
    (spark : SparkSession) (input_data output_data : SectionProxy) : P unit := λ w,
  (w, Raises (Raised (TypeError "unsupported operand type(s) for +: 'SectionProxy' and 'str'"))).

Definition main (cluster : gmap string string → SparkSession) (dl_cfg : ConfigFile) : P unit :=
  config ← Config.read dl_cfg;
  key ← Config.getitem config "AWS_ACCESS_KEY_ID";
  environ_setitem "AWS_ACCESS_KEY_ID" (PyProxy key) ;;
  secret ← Config.getitem config "AWS_SECRET_ACCESS_KEY";
  environ_setitem "AWS_SECRET_ACCESS_KEY" (PyProxy secret) ;;
  let spark := create_spark_session cluster in
  input_data ← Config.getitem config "INPUT";
  output_data ← Config.getitem config "OUTPUT";
  call_with_proxies process_song_data spark input_data output_data ;;
  call_with_proxies process_log_data spark input_data output_data.

(** * Vocabulary of the statements *)

(** The schema [cols] has exactly one column named [c]: the name resolves. *)
Definition unique_in (cols : list string) (c : string) : Prop :=
  length (filter (λ x, x = c) cols) = 1%nat.

(** No cell of [keys] is missing in the record: it passes
    [dropna(how='any', subset=keys)]. *)
Definition keys_present (keys : list string) (r : Row) : Prop :=
  Forall (λ k, DF.present (get r k) = true) keys.

(** The common shape of the three dimension builders. *)
Definition dimension (keys cols : list string) (spark : SparkSession) (df : DataFrame)
  : result DataFrame :=
  t ← DF.dropna any keys df;
  t ← DF.select cols t;
  DF.dropDuplicates spark t.

(** The song collection has the columns the script selects. *)
Definition song_data_columns (cols : list string) : Prop :=
  Forall (unique_in cols) (song_table_schema ++ artist_table_schema).

(** The DataFrame that [spark.read.json] makes of a dataset. *)
Definition scan (spark : SparkSession) (d : Dataset) : DataFrame :=
  {| columns := schema d; partitions := shuffle spark (records d) |}.

(** Membership in a list that is written out. *)
Ltac in_list := solve [repeat first [left | right]].

(** The Song rows whose title equals a value. *)
Definition titled (song : value) (songs : list Row) : list Row :=
  List.filter (λ s, bool_decide (Sql.equal_to song (get s "title") = Bool true)) songs.

(** What the left join makes of one event. *)
Definition left_join_rows (song_columns : list string) (songs : list Row) (e : Row) : list Row :=
  match titled (get e "song") songs with
  | [] => [e ++ null_row song_columns]
  | ms => (λ s, e ++ s) <$> ms
  end.

(** The ids [monotonically_increasing_id] gives the rows of partitions, in
    the order of the partitions and of their rows. *)
Definition partition_ids (parts : list (list Row)) : list Z :=
  concat (imap (λ p part, imap (λ i _, Sql.monotonic_id p i) part) parts).

(** [to_timestamp(df.ts / 1000.0)] on one event. *)
Definition start_time_of (e : Row) : value :=
  Sql.cast_timestamp (Sql.divide (get e "ts") (Double (Binary64.of_Z 1000))).

(** The row of the time table for a start time. *)
Definition time_row (tz : Z → Z) (start_time : value) : Row :=
  [("start_time", start_time);
   ("hour", Sql.on_timestamp (Calendar.hour_of tz) start_time);
   ("day", Sql.on_timestamp (Calendar.dayofmonth_of tz) start_time);
   ("week", Sql.on_timestamp (Calendar.weekofyear_of tz) start_time);
   ("month", Sql.on_timestamp (Calendar.month_of tz) start_time);
   ("year", Sql.on_timestamp (Calendar.year_of tz) start_time);
   ("weekday", Sql.on_timestamp (Calendar.dayofweek_of tz) start_time)].

Definition time_table_schema : list string :=
  ["start_time"; "hour"; "day"; "week"; "month"; "year"; "weekday"].

(** ** Sample data *)

(** A local session: one partition, wall clock in UTC. *)
Program Definition local_session : SparkSession :=
  {| shuffle l := [l]; timeZone _ := 0 |}.
Next Obligation. intros l. simpl. by rewrite app_nil_r. Qed.

Definition song_data_schema : list string :=
  ["artist_id"; "artist_latitude"; "artist_location"; "artist_longitude"; "artist_name";
   "duration"; "num_songs"; "song_id"; "title"; "year"].

Definition song_record (song_id title artist_id duration : value) : Row :=
  [("artist_id", artist_id); ("artist_latitude", Null); ("artist_location", Str "Y");
   ("artist_longitude", Null); ("artist_name", Str "X"); ("duration", duration);
   ("num_songs", Long 1); ("song_id", song_id); ("title", title); ("year", Long 2000)].

Definition song_a : Row :=
  song_record (Str "SOX1") (Str "Title A") (Str "ARX1") (Double (Binary64.of_Z 200)).
(** The same song id with another title. *)
Definition song_a_live : Row :=
  song_record (Str "SOX1") (Str "Title A (live)") (Str "ARX1") (Double (Binary64.of_Z 200)).
(** Another song with the title of [song_a]. *)
Definition song_a_cover : Row :=
  song_record (Str "SOX2") (Str "Title A") (Str "ARX2") (Double (Binary64.of_Z 180)).
Definition song_without_id : Row :=
  song_record Null (Str "Title B") (Str "ARX1") (Double (Binary64.of_Z 100)).

Definition log_data_schema : list string :=
  ["artist"; "firstName"; "gender"; "lastName"; "level"; "location"; "page"; "sessionId";
   "song"; "ts"; "userAgent"; "userId"].

Definition event (userId level page song : value) (ts : Z) : Row :=
  [("artist", Str "Artist X"); ("firstName", Str "Kaylee"); ("gender", Str "F");
   ("lastName", Str "Summers"); ("level", level); ("location", Str "Phoenix-Mesa-Scottsdale, AZ");
   ("page", page); ("sessionId", Long 139); ("song", song); ("ts", Long ts);
   ("userAgent", Str "Mozilla/5.0"); ("userId", userId)].

Definition play_a : Row := event (Str "8") (Str "free") (Str "NextSong") (Str "Title A") 1541440000000.
Definition play_a_paid : Row := event (Str "8") (Str "paid") (Str "NextSong") (Str "Title A") 1541440300000.
Definition play_unknown : Row :=
  event (Str "8") (Str "free") (Str "NextSong") (Str "Unknown Title") 1541440000000.
Definition play_anonymous : Row :=
  event Null (Str "free") (Str "NextSong") (Str "Title A") 1541440600000.
Definition home : Row := event (Str "8") (Str "free") (Str "Home") Null 1541440900000.

Definition sample_song_data : Dataset :=
  {| partitionBy := []; schema := song_data_schema;
     records := [song_a; song_without_id; song_a; song_a_live] |}.

Definition sample_log_data : Dataset :=
  {| partitionBy := []; schema := log_data_schema;
     records := [play_a; home; play_anonymous; play_a_paid; play_unknown] |}.

Definition sample_fs : gmap string Dataset :=
  <["in/song_data" := sample_song_data]> (<["in/log_data" := sample_log_data]> ∅).

(** A DataFrame of one partition. *)
Definition frame (cols : list string) (l : list Row) : DataFrame :=
  {| columns := cols; partitions := [l] |}.

Definition songs_columns : list string := ["song_id"; "title"; "duration"; "year"; "artist_id"].

(** The Song dimension as [spark.read.parquet] returns it. *)
Definition song_dimension (l : list Row) : DataFrame :=
  frame songs_columns (DF.project songs_columns <$> l).

(** A session that cuts what it shuffles in two partitions, the first of
    [n] rows. *)
Program Definition two_partitions (n : nat) : SparkSession :=
  {| shuffle l := [take n l; drop n l]; timeZone _ := 0 |}.
Next Obligation. intros n l. simpl. by rewrite app_nil_r, take_drop. Qed.

(** [n] copies of one play, in one partition. *)
Definition plays (n : nat) : DataFrame :=
  {| columns := log_data_schema; partitions := [replicate n play_unknown] |}.

Definition no_songs : DataFrame := {| columns := songs_columns; partitions := [] |}.

(** A configuration file with the four sections [main] asks for. *)
Definition dl_cfg_sections : ConfigFile :=
  Sections (<["AWS_ACCESS_KEY_ID" := {["key" := "AKIA"]}]>
           (<["AWS_SECRET_ACCESS_KEY" := {["key" := "secret"]}]>
           (<["INPUT" := {["path" := "in/"]}]>
           (<["OUTPUT" := {["path" := "out/"]}]> ∅)))).

Definition sample_world : World := {| environ := ∅; files := sample_fs |}.

(** A song collection that has the columns of the Song table only. *)
Definition songs_only_data : Dataset :=
  {| partitionBy := []; schema := song_table_schema;
     records := [DF.project song_table_schema song_a] |}.

Ltac not_in_list := apply (bool_decide_unpack _); exact I.

(** * Lemmas *)

(** ** Name resolution, projection and the three steps of a builder *)

Section Basics.
Implicit Types (r : Row) (c : string) (cols : list string) (df t : DataFrame).

Lemma unique_in_elem cols c : unique_in cols c → c ∈ cols.
Proof.
  unfold unique_in. intros H.
  destruct (filter (λ x, x = c) cols) as [|x l] eqn:E; [done|].
  assert (x ∈ filter (λ x, x = c) cols) as Hx by (rewrite E; left).
  apply list_elem_of_filter in Hx as [-> ?]. done.
Qed.

Lemma resolve_name_ok cols c : unique_in cols c → DF.resolve_name cols c = Ok ().
Proof. unfold unique_in, DF.resolve_name. by intros ->. Qed.

Lemma resolve_names_ok cols cs :
  Forall (unique_in cols) cs → DF.resolve_names cols cs = Ok ().
Proof.
  induction 1 as [|c cs Hc _ IH]; [done|].
  simpl. rewrite (resolve_name_ok _ _ Hc). exact IH.
Qed.

Lemma present_not_null v : DF.present v = true → v ≠ Null.
Proof. by destruct v. Qed.

Lemma get_project cols r c : c ∈ cols → get (DF.project cols r) c = get r c.
Proof.
  unfold get, DF.project. induction cols as [|k cols IH]; intros Hc.
  - by apply elem_of_nil in Hc.
  - simpl. case_decide as Hk; [by subst|].
    apply IH. apply elem_of_cons in Hc as [->|]; done.
Qed.

Lemma project_fields cols r : (DF.project cols r).*1 = cols.
Proof. unfold DF.project. rewrite <- list_fmap_compose. by rewrite list_fmap_id. Qed.

Lemma non_nulls_le keys r : (DF.non_nulls keys r ≤ length keys)%nat.
Proof.
  unfold DF.non_nulls. induction keys as [|k keys IH]; csimpl; [lia|].
  destruct (DF.present (get r k)); csimpl; lia.
Qed.

Lemma dropna_any_keeps keys r :
  (length keys <=? DF.non_nulls keys r)%nat = true ↔ keys_present keys r.
Proof.
  rewrite Nat.leb_le. unfold keys_present.
  induction keys as [|k keys IH].
  - split; [constructor|simpl; lia].
  - rewrite Forall_cons. rewrite <- IH.
    pose proof (non_nulls_le keys r) as Hle.
    unfold DF.non_nulls in *. csimpl.
    destruct (DF.present (get r k)); csimpl; split; try lia; naive_solver lia.
Qed.

Lemma rows_dropna_any keys df :
  Forall (unique_in (columns df)) keys →
  ∃ t, DF.dropna any keys df = Ok t ∧ columns t = columns df ∧
       rows t = List.filter (λ r, (length keys <=? DF.non_nulls keys r)%nat) (rows df).
Proof.
  intros Hk. unfold DF.dropna. rewrite (resolve_names_ok _ _ Hk).
  eexists. split; [reflexivity|]. split; [done|].
  unfold rows. simpl. apply concat_filter_map.
Qed.

Lemma rows_select cols df :
  Forall (unique_in (columns df)) cols →
  ∃ t, DF.select cols df = Ok t ∧ columns t = cols ∧
       rows t = DF.project cols <$> rows df.
Proof.
  intros Hk. unfold DF.select. rewrite (resolve_names_ok _ _ Hk).
  eexists. split; [reflexivity|]. split; [done|].
  unfold rows. simpl. symmetry. apply concat_map.
Qed.

Lemma rows_dropDuplicates spark df :
  ∃ t, DF.dropDuplicates spark df = Ok t ∧ columns t = columns df ∧
       rows t ≡ₚ remove_dups (rows df).
Proof.
  eexists. split; [reflexivity|]. split; [done|]. apply shuffle_perm.
Qed.

Lemma dimension_rows keys cols spark df :
  Forall (unique_in (columns df)) keys →
  Forall (unique_in (columns df)) cols →
  ∃ t, dimension keys cols spark df = Ok t ∧ columns t = cols ∧
       rows t ≡ₚ remove_dups (DF.project cols <$>
                   List.filter (λ r, (length keys <=? DF.non_nulls keys r)%nat) (rows df)).
Proof.
  intros Hk Hc. unfold dimension.
  destruct (rows_dropna_any keys df Hk) as (t1 & -> & Hc1 & Hr1).
  rewrite <- Hc1 in Hc.
  destruct (rows_select cols t1 Hc) as (t2 & E2 & Hc2 & Hr2).
  simpl. rewrite E2. simpl.
  destruct (rows_dropDuplicates spark t2) as (t3 & -> & Hc3 & Hr3).
  exists t3. split; [done|]. split; [congruence|].
  by rewrite Hr3, Hr2, Hr1.
Qed.

Lemma dimension_elem_of keys cols spark df t :
  dimension keys cols spark df = Ok t →
  Forall (unique_in (columns df)) keys →
  Forall (unique_in (columns df)) cols →
  ∀ r, r ∈ rows t ↔
       ∃ raw, raw ∈ rows df ∧ keys_present keys raw ∧ r = DF.project cols raw.
Proof.
  intros Ht Hk Hc r.
  destruct (dimension_rows keys cols spark df Hk Hc) as (t' & Ht' & _ & Hr).
  rewrite Ht in Ht'. injection Ht' as <-.
  rewrite Hr, elem_of_remove_dups, list_elem_of_fmap.
  split.
  - intros (raw & -> & Hraw). apply list_elem_of_In, filter_In in Hraw as [Hin Hkeep].
    exists raw. rewrite list_elem_of_In. by rewrite <- dropna_any_keeps.
  - intros (raw & Hin & Hp & ->). exists raw. split; [done|].
    apply list_elem_of_In, filter_In. rewrite <- list_elem_of_In.
    by rewrite dropna_any_keeps.
Qed.

Lemma dimension_NoDup keys cols spark df t :
  dimension keys cols spark df = Ok t →
  Forall (unique_in (columns df)) keys →
  Forall (unique_in (columns df)) cols →
  NoDup (rows t).
Proof.
  intros Ht Hk Hc.
  destruct (dimension_rows keys cols spark df Hk Hc) as (t' & Ht' & _ & Hr).
  rewrite Ht in Ht'. injection Ht' as <-.
  rewrite Hr. apply NoDup_remove_dups.
Qed.
End Basics.

(** ** Running [process_song_data] *)

Section Run.
Lemma append_inj_l (s a b : string) : s +:+ a = s +:+ b → a = b.
Proof. induction s as [|c s IH]; simpl; [done|]. intros [= H]. auto. Qed.

Lemma rows_scan spark d : rows (scan spark d) ≡ₚ records d.
Proof. apply shuffle_perm. Qed.

Lemma read_json_run spark path fs d :
  fs !! path = Some d → IO.read_json spark path fs = (fs, Ok (scan spark d)).
Proof. unfold IO.read_json. by intros ->. Qed.

Lemma write_parquet_overwrite cols path df fs :
  Forall (unique_in (columns df)) cols →
  IO.write_parquet overwrite cols path df fs =
    (<[path := {| partitionBy := cols; schema := columns df; records := rows df |}]> fs, Ok ()).
Proof. intros H. unfold IO.write_parquet. by rewrite (resolve_names_ok _ _ H). Qed.

Lemma unique_in_sub cols cs c : Forall (unique_in cols) cs → c ∈ cs → unique_in cols c.
Proof. rewrite Forall_forall. auto. Qed.

Lemma process_song_data_run spark input_data output_data fs d :
  fs !! (input_data +:+ "song_data") = Some d →
  song_data_columns (schema d) →
  ∃ songs artists,
    songs_table spark (scan spark d) = Ok songs ∧
    artists_table spark (scan spark d) = Ok artists ∧
    columns songs = song_table_schema ∧
    columns artists = artist_table_schema ∧
    process_song_data spark input_data output_data fs =
      (<[output_data +:+ "artists.parquet" :=
           {| partitionBy := ["artist_location"]; schema := artist_table_schema;
              records := rows artists |}]>
         (<[output_data +:+ "songs.parquet" :=
              {| partitionBy := ["year"; "artist_id"]; schema := song_table_schema;
                 records := rows songs |}]> fs), Ok ()).
Proof.
  intros Hfs Hcols. unfold song_data_columns in Hcols.
  apply Forall_app in Hcols as [Hs Ha].
  assert (Forall (unique_in (columns (scan spark d))) ["song_id"; "artist_id"]) as Hk.
  { repeat constructor; eapply unique_in_sub; try exact Hs; in_list. }
  destruct (dimension_rows ["song_id"; "artist_id"] song_table_schema spark (scan spark d) Hk Hs)
    as (songs & Hsongs & Hcs & _).
  destruct (dimension_rows ["song_id"; "artist_id"] artist_table_schema spark (scan spark d) Hk Ha)
    as (artists & Hartists & Hca & _).
  exists songs, artists. repeat split; try done.
  unfold process_song_data, mbind, M_bind.
  rewrite (read_json_run _ _ _ _ Hfs).
  unfold lift. change (songs_table spark (scan spark d)) with
    (dimension ["song_id"; "artist_id"] song_table_schema spark (scan spark d)).
  rewrite Hsongs.
  rewrite write_parquet_overwrite by (rewrite Hcs; repeat constructor).
  change (artists_table spark (scan spark d)) with
    (dimension ["song_id"; "artist_id"] artist_table_schema spark (scan spark d)).
  rewrite Hartists.
  rewrite write_parquet_overwrite by (rewrite Hca; repeat constructor).
  by rewrite Hcs, Hca.
Qed.
End Run.

Lemma NoDup_count {A} `{EqDecision A} (l : list A) (x : A) :
  NoDup l → x ∈ l → length (filter (λ y, y = x) l) = 1%nat.
Proof.
  induction 1 as [|y l Hy Hl IH]; intros Hx; [by apply elem_of_nil in Hx|].
  rewrite filter_cons. case_decide as E.
  - subst y. simpl. f_equal.
    destruct (filter (λ y, y = x) l) as [|z k] eqn:F; [done|].
    assert (z ∈ filter (λ y, y = x) l) as Hz by (rewrite F; left).
    apply list_elem_of_filter in Hz as [-> ?]. done.
  - apply IH. apply elem_of_cons in Hx as [->|]; done.
Qed.

Lemma keys_present_song raw :
  keys_present ["song_id"; "artist_id"] raw →
  get raw "song_id" ≠ Null ∧ get raw "artist_id" ≠ Null.
Proof.
  intros H. apply Forall_cons in H as [H1 H]. apply Forall_cons in H as [H2 _].
  split; by apply present_not_null.
Qed.

(** ** The left join on the title *)

Section Join.
Implicit Types (r l e s : Row) (c : string) (cols : list string).

Lemma field_app_l l r c : c ∈ l.*1 → field c (l ++ r) = field c l.
Proof.
  induction l as [|[k v] l IH]; csimpl; intros H.
  - by apply elem_of_nil in H.
  - case_decide; [done|]. apply IH. apply elem_of_cons in H as [->|]; done.
Qed.

Lemma field_app_r l r c : c ∉ l.*1 → field c (l ++ r) = field c r.
Proof.
  induction l as [|[k v] l IH]; csimpl; intros H; [done|].
  apply not_elem_of_cons in H as [? ?]. case_decide; [by subst|]. by apply IH.
Qed.

Lemma get_app_l l r c : c ∈ l.*1 → get (l ++ r) c = get l c.
Proof. intros H. unfold get. by rewrite field_app_l. Qed.

Lemma get_app_r l r c : c ∉ l.*1 → get (l ++ r) c = get r c.
Proof. intros H. unfold get. by rewrite field_app_r. Qed.

Lemma get_null_row cols c : get (null_row cols) c = Null.
Proof.
  unfold get, null_row. induction cols as [|k cols IH]; csimpl; [done|].
  by case_decide.
Qed.

Lemma unique_in_app_r cols1 cols2 c :
  unique_in (cols1 ++ cols2) c → c ∈ cols2 → c ∉ cols1.
Proof.
  unfold unique_in. rewrite filter_app, length_app. intros H H2 H1.
  assert (∀ cols, c ∈ cols → (0 < length (filter (λ x, x = c) cols))%nat) as Hpos.
  { intros cols Hc.
    assert (c ∈ filter (λ x, x = c) cols) as Hf by (by apply list_elem_of_filter).
    destruct (filter (λ x, x = c) cols); [by apply elem_of_nil in Hf|simpl; lia]. }
  apply Hpos in H1, H2. lia.
Qed.

Lemma join_row_left spark cols1 cols2 songs e :
  e.*1 = cols1 → "song" ∈ cols1 → "title" ∉ cols1 →
  DF.join_row spark (col "song" ==. col "title") left cols2 songs e =
    left_join_rows cols2 songs e.
Proof.
  intros He Hs Ht. unfold DF.join_row, left_join_rows, DF.matches, titled.
  match goal with
  | |- match ?a with _ => _ end = match ?b with _ => _ end => assert (a = b) as ->; [|done]
  end.
  apply List.filter_ext. intros s. simpl.
  rewrite get_app_l by (by rewrite He). rewrite get_app_r by (by rewrite He). done.
Qed.

Lemma left_join_rows_length cols2 songs e :
  length (left_join_rows cols2 songs e) = (1 `max` length (titled (get e "song") songs))%nat.
Proof.
  unfold left_join_rows. destruct (titled _ _) as [|m ms]; [done|].
  rewrite length_fmap. reflexivity.
Qed.

Lemma length_bind_ge {A B} (f : A → list B) (l : list A) :
  (∀ x, x ∈ l → (1 ≤ length (f x))%nat) → (length l ≤ length (l ≫= f))%nat.
Proof.
  induction l as [|x l IH]; intros H; [done|].
  rewrite bind_cons, length_app. simpl.
  specialize (H x (list_elem_of_here _ _)) as Hx.
  specialize (IH (λ y Hy, H y (list_elem_of_further _ _ _ Hy))). lia.
Qed.

Lemma length_bind_eq {A B} (f : A → list B) (l : list A) :
  (∀ x, x ∈ l → length (f x) = 1%nat) → length (l ≫= f) = length l.
Proof.
  induction l as [|x l IH]; intros H; [done|].
  rewrite bind_cons, length_app. simpl.
  rewrite (H x (list_elem_of_here _ _)).
  by rewrite (IH (λ y Hy, H y (list_elem_of_further _ _ _ Hy))).
Qed.

Lemma songplays_joined_partitions spark df songs_df :
  conforms df →
  "song" ∈ columns df → "title" ∈ columns songs_df →
  unique_in (columns df ++ columns songs_df) "song" →
  unique_in (columns df ++ columns songs_df) "title" →
  songplays_joined spark df songs_df =
    Ok {| columns := columns df ++ columns songs_df;
          partitions :=
            shuffle spark (rows df ≫= left_join_rows (columns songs_df) (rows songs_df)) |}.
Proof.
  intros Hconf Hs Ht Us Ut.
  pose proof (unique_in_app_r _ _ _ Ut Ht) as Hnt.
  unfold songplays_joined, DF.getattr.
  rewrite !decide_True by done. simpl.
  unfold DF.join, DF.resolve. simpl.
  rewrite (resolve_name_ok _ _ Us), (resolve_name_ok _ _ Ut). simpl.
  rewrite (Forall_bind_ext _ (left_join_rows (columns songs_df) (rows songs_df))); [done|].
  apply Forall_forall. intros e He.
  by apply join_row_left with (cols1 := columns df);
    [apply (proj1 (Forall_forall _ _) Hconf)| |].
Qed.

Lemma songplays_joined_rows spark df songs_df :
  conforms df →
  "song" ∈ columns df → "title" ∈ columns songs_df →
  unique_in (columns df ++ columns songs_df) "song" →
  unique_in (columns df ++ columns songs_df) "title" →
  ∃ j, songplays_joined spark df songs_df = Ok j ∧
       columns j = columns df ++ columns songs_df ∧
       rows j ≡ₚ rows df ≫= left_join_rows (columns songs_df) (rows songs_df).
Proof.
  intros Hconf Hs Ht Us Ut.
  rewrite (songplays_joined_partitions spark df songs_df Hconf Hs Ht Us Ut).
  eexists. split; [reflexivity|]. split; [done|]. apply shuffle_perm.
Qed.

Lemma left_join_rows_unmatched cols2 songs e :
  titled (get e "song") songs = [] →
  left_join_rows cols2 songs e = [e ++ null_row cols2].
Proof. unfold left_join_rows. by intros ->. Qed.

Lemma get_unmatched cols2 e c : c ∉ e.*1 → get (e ++ null_row cols2) c = Null.
Proof. intros H. rewrite get_app_r by done. apply get_null_row. Qed.
End Join.

(** ** The ids of [monotonically_increasing_id] *)

Section Ids.
Lemma get_set_field c v (r : Row) : get (set_field c v r) c = v.
Proof.
  unfold get. induction r as [|[k w] r IH]; simpl.
  - by rewrite decide_True.
  - case_decide as E; simpl; [by rewrite decide_True|]. by rewrite decide_False.
Qed.

Lemma wrap64_small z : - 2 ^ 63 ≤ z < 2 ^ 63 → Sql.wrap64 z = z.
Proof.
  intros H. unfold Sql.wrap64.
  rewrite Z.mod_small by lia. lia.
Qed.

Lemma monotonic_id_small (p i : nat) :
  Z.of_nat p < 2 ^ 30 → Z.of_nat i < 2 ^ 33 →
  Sql.monotonic_id p i = Z.of_nat p * 2 ^ 33 + Z.of_nat i.
Proof.
  intros Hp Hi. unfold Sql.monotonic_id.
  rewrite Z.shiftl_mul_pow2 by lia.
  rewrite (wrap64_small (Z.of_nat p * 2 ^ 33)) by lia.
  apply wrap64_small. lia.
Qed.

Lemma fmap_mapi_rows {B} (h : Row → B) (f : nat → nat → Row → Row) (g : nat → nat → B) parts :
  (∀ p i r, h (f p i r) = g p i) →
  h <$> concat (DF.mapi_rows f parts) = concat (imap (λ p part, imap (λ i _, g p i) part) parts).
Proof.
  unfold DF.mapi_rows. revert f g.
  induction parts as [|part parts IH]; intros f g H; [done|].
  rewrite !imap_cons. simpl. rewrite fmap_app. f_equal.
  - rewrite fmap_imap. apply imap_ext. intros i r _. apply H.
  - apply (IH (λ p, f (S p)) (λ p, g (S p))). intros. apply H.
Qed.

Lemma length_mapi_rows f parts : length (concat (DF.mapi_rows f parts)) = length (concat parts).
Proof.
  unfold DF.mapi_rows. revert f.
  induction parts as [|part parts IH]; intros f; [done|].
  rewrite imap_cons. simpl. rewrite !length_app, length_imap. f_equal. apply (IH (λ p, f (S p))).
Qed.

(** The ids of one partition, from the record number [i0] on. *)
Lemma ids_of_partition_sorted (p i0 : nat) (part : list Row) :
  Z.of_nat p < 2 ^ 30 → Z.of_nat i0 + Z.of_nat (length part) ≤ 2 ^ 33 →
  let ids := imap (λ i _, Sql.monotonic_id p (i0 + i)) part in
  StronglySorted Z.lt ids ∧
  Forall (λ z, Z.of_nat p * 2 ^ 33 + Z.of_nat i0 ≤ z < (Z.of_nat p + 1) * 2 ^ 33) ids.
Proof.
  intros Hp. revert i0. induction part as [|r part IH]; intros i0 Hi ids.
  - split; constructor.
  - subst ids. rewrite imap_cons. simpl in Hi.
    destruct (IH (S i0)) as [Hs Hb]; [lia|].
    assert (imap ((λ i _, Sql.monotonic_id p (i0 + i)) ∘ S) part
            = imap (λ i _, Sql.monotonic_id p (S i0 + i)) part) as ->.
    { apply imap_ext. intros i x _. simpl. f_equal. lia. }
    rewrite Nat.add_0_r, monotonic_id_small by lia.
    split.
    + constructor; [done|].
      eapply Forall_impl; [exact Hb|]. intros z Hz. simpl in Hz. lia.
    + constructor; [lia|].
      eapply Forall_impl; [exact Hb|]. intros z Hz. simpl in Hz. lia.
Qed.

Lemma ids_of_partitions_sorted (p0 : nat) (parts : list (list Row)) :
  Z.of_nat p0 + Z.of_nat (length parts) ≤ 2 ^ 30 →
  Forall (λ part, Z.of_nat (length part) ≤ 2 ^ 33) parts →
  let ids := concat (imap (λ p part, imap (λ i _, Sql.monotonic_id (p0 + p) i) part) parts) in
  StronglySorted Z.lt ids ∧ Forall (λ z, Z.of_nat p0 * 2 ^ 33 ≤ z) ids.
Proof.
  revert p0. induction parts as [|part parts IH]; intros p0 Hp Hparts ids.
  - split; constructor.
  - subst ids. rewrite imap_cons. simpl in Hp.
    apply Forall_cons in Hparts as [Hpart Hparts].
    destruct (IH (S p0)) as [Hs Hb]; [lia|done|].
    assert (imap ((λ p part0, imap (λ i _, Sql.monotonic_id (p0 + p) i) part0) ∘ S) parts
            = imap (λ p part0, imap (λ i _, Sql.monotonic_id (S p0 + p) i) part0) parts) as ->.
    { apply imap_ext. intros p x _. simpl. apply imap_ext. intros i y _. simpl.
      f_equal. lia. }
    destruct (ids_of_partition_sorted (p0 + 0) 0 part) as [Hs0 Hb0]; [lia|lia|].
    simpl. split.
    + apply StronglySorted_app. split; [|done].
      intros x1 x2 H1 H2.
      rewrite Forall_forall in Hb0. rewrite Forall_forall in Hb.
      specialize (Hb0 x1 H1). specialize (Hb x2 H2). simpl in Hb0. lia.
    + apply Forall_app. split.
      * eapply Forall_impl; [exact Hb0|]. intros z Hz. simpl in Hz. lia.
      * eapply Forall_impl; [exact Hb|]. intros z Hz. simpl in Hz. lia.
Qed.

Lemma partition_ids_sorted (parts : list (list Row)) :
  Z.of_nat (length parts) ≤ 2 ^ 30 →
  Forall (λ part, Z.of_nat (length part) ≤ 2 ^ 33) parts →
  StronglySorted Z.lt (partition_ids parts).
Proof.
  intros Hp Hparts.
  destruct (ids_of_partitions_sorted 0 parts) as [H _]; [lia|done|].
  exact H.
Qed.

Lemma StronglySorted_lt_NoDup (l : list Z) : StronglySorted Z.lt l → NoDup l.
Proof.
  induction 1 as [|x l Hs IH Hx]; constructor; [|done].
  intros Hin. rewrite Forall_forall in Hx. specialize (Hx x Hin). lia.
Qed.

Lemma songplays_keyed_ids spark df songs_df j :
  songplays_joined spark df songs_df = Ok j →
  ∃ t, songplays_keyed spark df songs_df = Ok t ∧
       (λ r, get r "songplay_id") <$> rows t = Long <$> partition_ids (partitions j) ∧
       length (rows t) = length (rows j).
Proof.
  intros Hj. unfold songplays_keyed. rewrite Hj. simpl.
  unfold DF.withColumn, DF.resolve. simpl.
  eexists. split; [reflexivity|]. unfold rows. simpl. split.
  - rewrite (fmap_mapi_rows _ _ (λ p i, Long (Sql.monotonic_id p i)))
      by (intros; apply get_set_field).
    unfold partition_ids.
    generalize Sql.monotonic_id. intros f. generalize (partitions j). clear.
    intros parts. revert f. induction parts as [|part parts IH]; intros f; [done|].
    rewrite !imap_cons. simpl. rewrite fmap_app. f_equal.
    + by rewrite fmap_imap.
    + apply (IH (λ p, f (S p))).
  - apply length_mapi_rows.
Qed.
End Ids.

(** ** Past 2^33 rows in a partition *)

Section Collision.
Lemma bind_replicate {A B} (f : A → list B) (x : A) (y : B) (n : nat) :
  f x = [y] → replicate n x ≫= f = replicate n y.
Proof.
  intros H. induction n as [|n IH]; [done|].
  change (replicate (S n) x) with (x :: replicate n x).
  by rewrite bind_cons, H, IH.
Qed.

Lemma monotonic_id_collision (i : nat) :
  Z.of_nat i = 2 ^ 33 → Sql.monotonic_id 0 i = Sql.monotonic_id 1 0.
Proof. intros H. unfold Sql.monotonic_id. rewrite H. reflexivity. Qed.

Lemma partition_ids_two (a b : list Row) :
  partition_ids [a; b]
  = imap (λ i _, Sql.monotonic_id 0 i) a ++ imap (λ i _, Sql.monotonic_id 1 i) b.
Proof. unfold partition_ids. rewrite !imap_cons. simpl. by rewrite app_nil_r. Qed.

Lemma songplays_keyed_collision (i : nat) :
  Z.of_nat i = 2 ^ 33 →
  ∃ t, songplays_keyed (two_partitions (S i)) (plays (S (S i))) no_songs = Ok t ∧
       length (rows t) = S (S i) ∧
       ¬ NoDup ((λ r, get r "songplay_id") <$> rows t).
Proof.
  intros Hi.
  assert (songplays_joined (two_partitions (S i)) (plays (S (S i))) no_songs
          = Ok {| columns := log_data_schema ++ songs_columns;
                  partitions := [replicate (S i) (play_unknown ++ null_row songs_columns);
                                 [play_unknown ++ null_row songs_columns]] |}) as Hj.
  { rewrite songplays_joined_partitions; [| |in_list|in_list|done|done]; cycle 1.
    { apply Forall_forall. intros r Hr.
      change (rows (plays (S (S i)))) with (replicate (S (S i)) play_unknown ++ []) in Hr.
      rewrite app_nil_r in Hr. by apply elem_of_replicate_inv in Hr as ->. }
    do 2 f_equal.
    change (rows (plays (S (S i)))) with (replicate (S (S i)) play_unknown ++ []).
    rewrite app_nil_r.
    rewrite (bind_replicate _ play_unknown (play_unknown ++ null_row songs_columns)) by done.
    change (shuffle (two_partitions (S i)) ?l) with [take (S i) l; drop (S i) l].
    rewrite take_replicate, drop_replicate.
    replace (S i `min` S (S i))%nat with (S i) by lia.
    replace (S (S i) - S i)%nat with 1%nat by lia. done. }
  destruct (songplays_keyed_ids _ _ _ _ Hj) as (t & Ht & Hids & Hlen).
  exists t. split; [done|]. split.
  { rewrite Hlen. unfold rows. simpl. rewrite length_app, length_replicate. simpl. lia. }
  rewrite Hids. cbn [partitions]. rewrite partition_ids_two.
  intros Hnd. apply (NoDup_fmap_1 Long) in Hnd.
  apply NoDup_app in Hnd as (_ & Hdis & _).
  apply (Hdis (Sql.monotonic_id 1 0)); [|left].
  rewrite <- (monotonic_id_collision i Hi).
  apply (elem_of_lookup_imap_2 (λ i0 (_ : Row), Sql.monotonic_id 0 i0) _
           (play_unknown ++ null_row songs_columns) i).
  apply lookup_replicate_2. lia.
Qed.
End Collision.

(** ** Ranges of the calendar fields *)

Section CalendarRanges.
Import Calendar.

Lemma civil_ranges (day : Z) :
  let '(y, m, d) := civil day in 1 ≤ m ≤ 12 ∧ 1 ≤ d ≤ 31.
Proof.
  unfold civil.
  set (z := day + 719468). clearbody z.
  set (era := z / 146097).
  set (doe := z - era * 146097).
  assert (0 ≤ doe < 146097) as Hdoe by (subst doe era; Z.div_mod_to_equations; lia).
  clearbody doe. clear z era.
  set (yoe := (doe - doe / 1460 + doe / 36524 - doe / 146096) / 365).
  set (doy := doe - (365 * yoe + yoe / 4 - yoe / 100)).
  assert (0 ≤ doy ≤ 365) as Hdoy.
  { subst doy yoe. Z.div_mod_to_equations. lia. }
  clearbody doy.
  set (mp := (5 * doy + 2) / 153).
  assert (0 ≤ mp ≤ 11) as Hmp by (subst mp; Z.div_mod_to_equations; lia).
  assert (1 ≤ doy - (153 * mp + 2) / 5 + 1 ≤ 31) as Hd.
  { subst mp. Z.div_mod_to_equations. lia. }
  clearbody mp.
  destruct (mp <? 10) eqn:E; [apply Z.ltb_lt in E|apply Z.ltb_ge in E]; lia.
Qed.

Lemma day_of_year_range (day : Z) :
  0 ≤ day - days_from_civil (civil day).1.1 1 1 ≤ 365.
Proof.
  unfold civil, days_from_civil.
  assert (∃ z, day = z - 719468) as [z ->] by (exists (day + 719468); lia).
  replace (z - 719468 + 719468) with z by lia.
  set (era := z / 146097).
  set (doe := z - era * 146097).
  assert (0 ≤ doe < 146097) as Hdoe by (subst doe era; Z.div_mod_to_equations; lia).
  assert (z = era * 146097 + doe) as Hz by (subst doe; lia).
  clearbody doe era. subst z.
  set (yoe := (doe - doe / 1460 + doe / 36524 - doe / 146096) / 365).
  assert (0 ≤ yoe ≤ 399) as Hyoe by (subst yoe; Z.div_mod_to_equations; lia).
  set (doy := doe - (365 * yoe + yoe / 4 - yoe / 100)).
  assert (0 ≤ doy ≤ 365) as Hdoy.
  { subst doy yoe. Z.div_mod_to_equations. lia. }
  assert (doe = doy + (365 * yoe + yoe / 4 - yoe / 100)) as Hd by (subst doy; lia).
  clearbody doy yoe. subst doe.
  set (mp := (5 * doy + 2) / 153).
  assert (0 ≤ mp ≤ 11) as Hmp by (subst mp; Z.div_mod_to_equations; lia).
  assert (mp < 10 ↔ doy < 306) as Hmpd by (subst mp; Z.div_mod_to_equations; lia).
  clearbody mp.
  cbn [fst snd].
  change (1 <=? 2) with true. change (2 <? 1) with false. cbv iota.
  change ((153 * (1 + 9) + 2) / 5 + 1 - 1) with 306.
  destruct (mp <? 10) eqn:E; [apply Z.ltb_lt in E|apply Z.ltb_ge in E].
  - replace (mp + 3 <=? 2) with false by (symmetry; apply Z.leb_gt; lia).
    Z.div_mod_to_equations. lia.
  - replace (mp - 9 <=? 2) with true by (symmetry; apply Z.leb_le; lia).
    Z.div_mod_to_equations. lia.
Qed.
End CalendarRanges.

(** ** The time table *)

Section TimeTable.
Lemma mapi_rows_const (g : Row → Row) parts :
  DF.mapi_rows (λ _ _, g) parts = (fmap g : list Row → list Row) <$> parts.
Proof.
  unfold DF.mapi_rows.
  induction parts as [|part parts IH]; [done|].
  rewrite imap_cons. csimpl. f_equal; [|exact IH].
  clear. induction part as [|r part IH]; [done|].
  rewrite imap_cons. csimpl. f_equal. exact IH.
Qed.

Lemma concat_fmap_fmap {A B} (g : A → B) (parts : list (list A)) :
  concat ((fmap g : list A → list B) <$> parts) = g <$> concat parts.
Proof. induction parts as [|p parts IH]; [done|]. csimpl. by rewrite fmap_app, IH. Qed.

Lemma rows_mapi_rows_const (g : Row → Row) parts :
  concat (DF.mapi_rows (λ _ _, g) parts) = g <$> concat parts.
Proof. by rewrite mapi_rows_const, concat_fmap_fmap. Qed.

Lemma filter_eq_not_elem (cols : list string) c : c ∉ cols → filter (λ x, x = c) cols = [].
Proof.
  induction cols as [|k cols IH]; [done|]. intros [? ?]%not_elem_of_cons.
  rewrite filter_cons, decide_False by done. by apply IH.
Qed.

Lemma not_elem_unique_app cols c : c ∉ cols → unique_in (cols ++ [c]) c.
Proof.
  intros H. unfold unique_in. rewrite filter_app, length_app.
  rewrite (filter_eq_not_elem cols c H).
  by rewrite filter_cons, decide_True.
Qed.

Lemma with_start_time_rows spark df :
  unique_in (columns df) "ts" → "start_time" ∉ columns df →
  ∃ df', with_start_time spark df = Ok df' ∧
         columns df' = columns df ++ ["start_time"] ∧
         rows df' = (λ e, set_field "start_time" (start_time_of e) e) <$> rows df.
Proof.
  intros Hts Hst. unfold with_start_time, DF.getattr.
  rewrite decide_True by (by apply unique_in_elem). simpl.
  unfold DF.withColumn, DF.resolve. simpl.
  rewrite (resolve_name_ok _ _ Hts). simpl.
  rewrite decide_False by done.
  eexists. split; [reflexivity|]. split; [done|].
  unfold rows. simpl. apply (rows_mapi_rows_const (λ e, set_field "start_time" (start_time_of e) e)).
Qed.

Lemma time_table_rows spark df :
  unique_in (columns df) "start_time" →
  ∃ t, time_table spark df = Ok t ∧ columns t = time_table_schema ∧
       rows t ≡ₚ (λ r, time_row (timeZone spark) (get r "start_time"))
                   <$> remove_dups (DF.project ["start_time"] <$> rows df).
Proof.
  intros Hst. unfold time_table.
  destruct (rows_select ["start_time"] df) as (t0 & -> & Hc0 & Hr0); [by repeat constructor|].
  simpl.
  unfold DF.getattr. rewrite !decide_True by (by apply unique_in_elem). simpl.
  unfold DF.withColumn, DF.resolve. simpl. rewrite Hc0. simpl.
  eexists. split; [reflexivity|]. split; [done|].
  unfold rows. simpl.
  rewrite !(rows_mapi_rows_const (λ r, set_field _ (Sql.on_timestamp _ (get r "start_time")) r)).
  rewrite shuffle_perm. fold (rows t0). rewrite Hr0. fold (rows df).
  rewrite <- !list_fmap_compose.
  erewrite (Forall_fmap_ext_1 _ (λ r, time_row (timeZone spark) (get r "start_time")));
    [done|].
  apply Forall_forall. intros r Hr.
  apply elem_of_remove_dups, list_elem_of_fmap in Hr as (e & -> & _). reflexivity.
Qed.

Import Calendar.

Lemma hour_of_range tz μ : 0 ≤ hour_of tz μ ≤ 23.
Proof. unfold hour_of, SECONDS_PER_DAY. Z.div_mod_to_equations. lia. Qed.

Lemma month_of_range tz μ : 1 ≤ month_of tz μ ≤ 12.
Proof.
  unfold month_of. pose proof (civil_ranges (local_day tz μ)) as H.
  destruct (civil _) as [[y m] d]. simpl. lia.
Qed.

Lemma dayofmonth_of_range tz μ : 1 ≤ dayofmonth_of tz μ ≤ 31.
Proof.
  unfold dayofmonth_of. pose proof (civil_ranges (local_day tz μ)) as H.
  destruct (civil _) as [[y m] d]. simpl. lia.
Qed.

Lemma weekofyear_of_range tz μ : 1 ≤ weekofyear_of tz μ ≤ 53.
Proof.
  unfold weekofyear_of, iso_week.
  set (thursday := local_day tz μ - iso_weekday (local_day tz μ) + 4).
  pose proof (day_of_year_range thursday) as H.
  destruct (civil thursday) as [[y m] d]. simpl in H.
  Z.div_mod_to_equations. lia.
Qed.

Lemma dayofweek_of_range tz μ : 1 ≤ dayofweek_of tz μ ≤ 7.
Proof. unfold dayofweek_of. destruct (name_of_day _); simpl; lia. Qed.

Lemma number_of_name_ends (n : day_name) :
  (number_of_name n = 1 ↔ n = Sunday) ∧ (number_of_name n = 7 ↔ n = Saturday).
Proof. destruct n; simpl; split; split; intros H; try done; lia. Qed.
End TimeTable.

(** ** What the table expressions of [process_log_data] do on their own *)

Section ByDesign.
Lemma songplays_table_raises spark df songs_df :
  ∃ e, songplays_table spark df songs_df = Raise e.
Proof.
  unfold songplays_table.
  destruct (songplays_keyed spark df songs_df) as [t|e]; simpl; [|by eexists].
  destruct (DF.getattr df "start_time") as [c|e]; simpl; by eexists.
Qed.

Lemma users_table_rows spark df :
  Forall (unique_in (columns df)) users_table_schema →
  ∃ t, users_table spark df = Ok t ∧
    (∀ r, r ∈ rows t ↔
          ∃ e, e ∈ rows df ∧ keys_present ["userId"; "firstName"] e ∧
               r = DF.project users_table_schema e) ∧
    (∀ r, r ∈ rows t → get r "userId" ≠ Null ∧ get r "firstName" ≠ Null).
Proof.
  intros Hu.
  assert (Forall (unique_in (columns df)) ["userId"; "firstName"]) as Hk.
  { repeat constructor; eapply unique_in_sub; try exact Hu; in_list. }
  destruct (dimension_rows ["userId"; "firstName"] users_table_schema spark df Hk Hu)
    as (t & Ht & _ & _).
  exists t. split; [exact Ht|].
  pose proof (dimension_elem_of _ _ _ _ _ Ht Hk Hu) as Hin.
  split; [exact Hin|].
  intros r (e & _ & Hp & ->)%Hin.
  apply Forall_cons in Hp as [H1 Hp]. apply Forall_cons in Hp as [H2 _].
  rewrite !get_project by in_list. split; by apply present_not_null.
Qed.

Lemma titled_strings (a b : string) (s : Row) (songs : list Row) :
  get s "title" = Str b → s ∈ titled (Str a) songs ↔ s ∈ songs ∧ a = b.
Proof.
  intros Hb. unfold titled. rewrite list_elem_of_In, filter_In, <- list_elem_of_In.
  rewrite Hb. simpl. rewrite bool_decide_eq_true.
  split; intros [? H]; split; try done.
  - injection H as H. by apply bool_decide_eq_true in H.
  - f_equal. by apply bool_decide_eq_true.
Qed.

Lemma titles_differ_in_case :
  titled (Str "title a") [DF.project songs_columns song_a] = [].
Proof. reflexivity. Qed.

Lemma joined_row_of_match spark df songs_df e s :
  conforms df →
  "song" ∈ columns df → "title" ∈ columns songs_df →
  unique_in (columns df ++ columns songs_df) "song" →
  unique_in (columns df ++ columns songs_df) "title" →
  e ∈ rows df → s ∈ titled (get e "song") (rows songs_df) →
  ∃ j, songplays_joined spark df songs_df = Ok j ∧ (e ++ s) ∈ rows j ∧
       ∀ c, c ∉ columns df → get (e ++ s) c = get s c.
Proof.
  intros Hconf Hs Ht Us Ut He Hm.
  destruct (songplays_joined_rows spark df songs_df Hconf Hs Ht Us Ut) as (j & Hj & _ & Hr).
  exists j. split; [exact Hj|]. split.
  - rewrite Hr. apply list_elem_of_bind. exists e. split; [|done].
    unfold left_join_rows. destruct (titled _ _) as [|m ms] eqn:E.
    + by apply elem_of_nil in Hm.
    + apply list_elem_of_fmap. eauto.
  - intros c Hc. apply get_app_r. by rewrite (proj1 (Forall_forall _ _) Hconf e He).
Qed.
End ByDesign.

Lemma process_log_data_run spark input_data output_data fs d :
  fs !! (input_data +:+ "log_data") = Some d →
  process_log_data spark input_data output_data fs = (fs, Raise (UnboundLocalError "df")).
Proof. intros H. unfold process_log_data, mbind, M_bind, IO.read_json. by rewrite H. Qed.

Lemma dimension_keeps_distinct keys cols spark df :
  Forall (unique_in (columns df)) keys →
  Forall (unique_in (columns df)) cols →
  ∃ t, dimension keys cols spark df = Ok t ∧
    ∀ r1 r2, r1 ∈ rows df → r2 ∈ rows df →
      keys_present keys r1 → keys_present keys r2 →
      (∃ c, c ∈ cols ∧ get r1 c ≠ get r2 c) →
      DF.project cols r1 ∈ rows t ∧ DF.project cols r2 ∈ rows t ∧
      DF.project cols r1 ≠ DF.project cols r2.
Proof.
  intros Hk Hc.
  destruct (dimension_rows keys cols spark df Hk Hc) as (t & Ht & _ & _).
  exists t. split; [done|].
  intros r1 r2 H1 H2 P1 P2 (c & Hin & Hne).
  split; [|split].
  - apply (dimension_elem_of _ _ _ _ _ Ht Hk Hc). eauto.
  - apply (dimension_elem_of _ _ _ _ _ Ht Hk Hc). eauto.
  - intros E. apply Hne.
    rewrite <- (get_project cols r1 c Hin), <- (get_project cols r2 c Hin).
    by rewrite E.
Qed.

(** * The claims *)

(** C1, as stated, fails: one [NextSong] event whose song is the title of two
    Song rows gives two joined rows, so the fact table would count two rows
    for one event. *)
Lemma two_songs_one_title_two_rows :
  let df := frame log_data_schema [play_a] in
  let songs_df := song_dimension [song_a; song_a_cover] in
  let next_song := List.filter (λ e, bool_decide (get e "page" = Str "NextSong")) (rows df) in
  ∃ j, songplays_joined local_session df songs_df = Ok j ∧
       length next_song = 1%nat ∧ length (rows j) = 2%nat ∧
       length (rows j) ≠ length next_song.
Proof.
  intros df songs_df next_song. eexists. split; [reflexivity|].
  split; [reflexivity|]. split; [reflexivity|]. discriminate.
Qed.

(** C1, amended.  The left join of line 92 never drops an event: the joined
    rows are, for each event, one row for each Song row whose title equals
    its song, and a single row padded with nulls when there is none.  So
    there are at least as many joined rows as events, exactly as many when
    no event matches more than one Song row, and the single row of an
    unmatched event has null [song_id] and [artist_id]. *)
Theorem left_join_keeps_every_event spark df songs_df :
  conforms df →
  "song" ∈ columns df → "title" ∈ columns songs_df →
  unique_in (columns df ++ columns songs_df) "song" →
  unique_in (columns df ++ columns songs_df) "title" →
  ∃ j, songplays_joined spark df songs_df = Ok j ∧
    rows j ≡ₚ rows df ≫= left_join_rows (columns songs_df) (rows songs_df) ∧
    (∀ e, length (left_join_rows (columns songs_df) (rows songs_df) e)
          = (1 `max` length (titled (get e "song") (rows songs_df)))%nat) ∧
    (length (rows df) ≤ length (rows j))%nat ∧
    ((∀ e, e ∈ rows df → (length (titled (get e "song") (rows songs_df)) ≤ 1)%nat) →
     length (rows j) = length (rows df)) ∧
    (∀ e, e ∈ rows df → titled (get e "song") (rows songs_df) = [] →
       let row := e ++ null_row (columns songs_df) in
       left_join_rows (columns songs_df) (rows songs_df) e = [row] ∧
       row ∈ rows j ∧
       ("song_id" ∉ columns df → get row "song_id" = Null) ∧
       ("artist_id" ∉ columns df → get row "artist_id" = Null)).
Proof.
  intros Hconf Hs Ht Us Ut.
  destruct (songplays_joined_rows spark df songs_df Hconf Hs Ht Us Ut) as (j & Hj & _ & Hr).
  exists j. split; [done|]. split; [done|].
  split; [intros e; apply left_join_rows_length|].
  split.
  { rewrite Hr. apply length_bind_ge. intros e _. rewrite left_join_rows_length. lia. }
  split.
  { intros H. rewrite Hr. apply length_bind_eq. intros e He.
    rewrite left_join_rows_length. specialize (H e He). lia. }
  intros e He Hm row.
  split; [by apply left_join_rows_unmatched|].
  split.
  { rewrite Hr. apply list_elem_of_bind. exists e. split; [|done].
    rewrite left_join_rows_unmatched by done. left. }
  split; intros H; apply get_unmatched;
    by rewrite (proj1 (Forall_forall _ _) Hconf e He).
Qed.

(** C1, the amended statement on two plays, one of an unknown title. *)
Lemma left_join_keeps_every_event_witness :
  let df := frame log_data_schema [play_a; play_unknown] in
  let songs_df := song_dimension [song_a] in
  conforms df ∧ "song" ∈ columns df ∧ "title" ∈ columns songs_df ∧
  unique_in (columns df ++ columns songs_df) "song" ∧
  unique_in (columns df ++ columns songs_df) "title" ∧
  ∃ j, songplays_joined local_session df songs_df = Ok j ∧
       length (rows j) = 2%nat ∧
       (play_unknown ++ null_row (columns songs_df)) ∈ rows j ∧
       get (play_unknown ++ null_row (columns songs_df)) "song_id" = Null ∧
       get (play_unknown ++ null_row (columns songs_df)) "artist_id" = Null.
Proof.
  intros df songs_df.
  assert (conforms df) as Hc by (repeat constructor).
  assert ("song" ∈ columns df) as Hs by in_list.
  assert ("title" ∈ columns songs_df) as Ht by in_list.
  assert (unique_in (columns df ++ columns songs_df) "song") as Us by reflexivity.
  assert (unique_in (columns df ++ columns songs_df) "title") as Ut by reflexivity.
  repeat (split; [assumption|]).
  destruct (left_join_keeps_every_event local_session df songs_df Hc Hs Ht Us Ut)
    as (j & Hj & _ & _ & _ & Heq & Hmiss).
  exists j. split; [exact Hj|].
  split.
  { apply Heq. intros e He.
    repeat (apply elem_of_cons in He as [->|He]; [vm_compute; lia|]).
    by apply elem_of_nil in He. }
  destruct (Hmiss play_unknown) as (_ & Hin & H1 & H2); [in_list|reflexivity|].
  split; [exact Hin|]. split; [apply H1|apply H2]; not_in_list.
Defined.

(** C2, as stated, fails: with more than 2^33 rows in one partition the record
    number runs into the bits of the partition index, and the last row of
    partition 0 gets the id of the first row of partition 1. *)
Lemma songplay_ids_collide :
  ∃ t, songplays_keyed (two_partitions (S (Z.to_nat (2 ^ 33))))
         (plays (S (S (Z.to_nat (2 ^ 33))))) no_songs = Ok t ∧
       length (rows t) = S (S (Z.to_nat (2 ^ 33))) ∧
       ¬ NoDup ((λ r, get r "songplay_id") <$> rows t).
Proof. apply songplays_keyed_collision. apply Z2Nat.id. lia. Qed.

(** C2, amended.  When the joined rows lie in at most 2^30 partitions of at
    most 2^33 rows each, the [songplay_id] values that
    [monotonically_increasing_id] gives them (lines 92-93) are strictly
    increasing in the order of the partitions and of their rows, hence
    pairwise distinct, and every joined row gets one. *)
Theorem songplay_ids_increase spark df songs_df j :
  songplays_joined spark df songs_df = Ok j →
  Z.of_nat (length (partitions j)) ≤ 2 ^ 30 →
  Forall (λ part, Z.of_nat (length part) ≤ 2 ^ 33) (partitions j) →
  ∃ t ids, songplays_keyed spark df songs_df = Ok t ∧
    (λ r, get r "songplay_id") <$> rows t = Long <$> ids ∧
    length (rows t) = length (rows j) ∧
    StronglySorted Z.lt ids ∧
    NoDup ids.
Proof.
  intros Hj Hp Hparts.
  destruct (songplays_keyed_ids spark df songs_df j Hj) as (t & Ht & Hids & Hlen).
  exists t, (partition_ids (partitions j)).
  pose proof (partition_ids_sorted _ Hp Hparts) as Hs.
  repeat split; try done. by apply StronglySorted_lt_NoDup.
Qed.

(** C2, the amended statement on two plays in a local session. *)
Lemma songplay_ids_increase_witness :
  let df := frame log_data_schema [play_a; play_unknown] in
  let songs_df := song_dimension [song_a] in
  ∃ j, songplays_joined local_session df songs_df = Ok j ∧
       Z.of_nat (length (partitions j)) ≤ 2 ^ 30 ∧
       Forall (λ part, Z.of_nat (length part) ≤ 2 ^ 33) (partitions j) ∧
       ∃ t, songplays_keyed local_session df songs_df = Ok t ∧
            (λ r, get r "songplay_id") <$> rows t = [Long 0; Long 1].
Proof.
  intros df songs_df. eexists. split; [reflexivity|].
  split; [simpl; lia|]. split; [repeat constructor; simpl; lia|].
  edestruct (songplay_ids_increase local_session df songs_df) as (t & ids & Ht & Hids & _);
    [reflexivity|simpl; lia|repeat constructor; simpl; lia|].
  exists t. split; [exact Ht|].
  vm_compute in Ht. injection Ht as <-. reflexivity.
Defined.

(** C3.  [process_log_data] always raises and leaves the file system as it
    found it, so it writes no users, time or songplays table; when the log
    collection exists, what it raises is [UnboundLocalError] for [df], a
    [NameError], raised by the argument of [filter] on line 59 before any
    record is filtered. *)
Theorem process_log_data_unbound_df spark input_data output_data fs :
  ∃ e, process_log_data spark input_data output_data fs = (fs, Raise e) ∧
       (is_Some (fs !! (input_data +:+ "log_data")) →
        e = UnboundLocalError "df" ∧ is_NameError e = true).
Proof.
  unfold process_log_data, mbind, M_bind, IO.read_json.
  destruct (fs !! (input_data +:+ "log_data")) as [d|] eqn:E.
  - exists (UnboundLocalError "df"). simpl. done.
  - eexists. split; [reflexivity|]. by intros [? ?].
Qed.

(** C3 on the sample file system. *)
Lemma process_log_data_unbound_df_witness :
  is_Some (sample_fs !! ("in/" +:+ "log_data")) ∧
  process_log_data local_session "in/" "out/" sample_fs
  = (sample_fs, Raise (UnboundLocalError "df")).
Proof.
  assert (is_Some (sample_fs !! ("in/" +:+ "log_data"))) as Hin by (by eexists).
  split; [exact Hin|].
  destruct (process_log_data_unbound_df local_session "in/" "out/" sample_fs)
    as (e & Hrun & He).
  destruct (He Hin) as [-> _]. exact Hrun.
Defined.

(** C4.  On a song collection with the columns the script selects,
    [process_song_data] succeeds, and in the tables it writes every Song row
    has a [song_id] and an [artist_id] that are not null and every Artist row
    an [artist_id] that is not null: each row is the projection of a raw
    record in which neither [song_id] nor [artist_id] is null, the others
    being dropped before the deduplication in both builders. *)
Theorem song_and_artist_keys_not_null spark input_data output_data fs d :
  fs !! (input_data +:+ "song_data") = Some d →
  song_data_columns (schema d) →
  ∃ fs' songs artists,
    process_song_data spark input_data output_data fs = (fs', Ok ()) ∧
    fs' !! (output_data +:+ "songs.parquet") = Some songs ∧
    fs' !! (output_data +:+ "artists.parquet") = Some artists ∧
    (∀ r, r ∈ records songs →
       get r "song_id" ≠ Null ∧ get r "artist_id" ≠ Null ∧
       ∃ raw, raw ∈ records d ∧ r = DF.project song_table_schema raw ∧
              get raw "song_id" ≠ Null ∧ get raw "artist_id" ≠ Null) ∧
    (∀ r, r ∈ records artists →
       get r "artist_id" ≠ Null ∧
       ∃ raw, raw ∈ records d ∧ r = DF.project artist_table_schema raw ∧
              get raw "song_id" ≠ Null ∧ get raw "artist_id" ≠ Null).
Proof.
  intros Hfs Hcols.
  destruct (process_song_data_run spark input_data output_data fs d Hfs Hcols)
    as (songs & artists & Hs & Ha & _ & _ & Hrun).
  pose proof Hcols as Hcols'. apply Forall_app in Hcols' as [Hcs Hca].
  assert (Forall (unique_in (columns (scan spark d))) ["song_id"; "artist_id"]) as Hk.
  { repeat constructor; eapply unique_in_sub; try exact Hcs; in_list. }
  eexists _, _, _. split; [exact Hrun|].
  split.
  { rewrite lookup_insert_ne; [apply lookup_insert_eq|].
    intros E%append_inj_l. discriminate. }
  split; [apply lookup_insert_eq|].
  split; simpl; intros r Hr.
  - apply (dimension_elem_of _ _ _ _ _ Hs Hk Hcs) in Hr as (raw & Hraw & Hp & ->).
    rewrite rows_scan in Hraw. apply keys_present_song in Hp as [H1 H2].
    rewrite !get_project by in_list. eauto 10.
  - apply (dimension_elem_of _ _ _ _ _ Ha Hk Hca) in Hr as (raw & Hraw & Hp & ->).
    rewrite rows_scan in Hraw. apply keys_present_song in Hp as [H1 H2].
    rewrite !get_project by in_list. eauto 10.
Qed.

(** C4 on the sample file system, where one raw record has no [song_id]. *)
Lemma song_and_artist_keys_not_null_witness :
  sample_fs !! ("in/" +:+ "song_data") = Some sample_song_data ∧
  song_data_columns (schema sample_song_data) ∧
  ∃ fs' songs artists,
    process_song_data local_session "in/" "out/" sample_fs = (fs', Ok ()) ∧
    fs' !! ("out/" +:+ "songs.parquet") = Some songs ∧
    fs' !! ("out/" +:+ "artists.parquet") = Some artists ∧
    (∀ r, r ∈ records songs → get r "song_id" ≠ Null ∧ get r "artist_id" ≠ Null) ∧
    (∀ r, r ∈ records artists → get r "artist_id" ≠ Null).
Proof.
  split; [reflexivity|]. split; [repeat constructor|].
  destruct (song_and_artist_keys_not_null local_session "in/" "out/" sample_fs sample_song_data)
    as (fs' & songs & artists & Hrun & Hs & Ha & Hsongs & Hartists);
    [reflexivity|repeat constructor|].
  exists fs', songs, artists. repeat split; try done.
  - by apply Hsongs.
  - by apply Hsongs.
  - by apply Hartists.
Defined.

(** C5, the code at a failing input.  On the sample log, [process_log_data]
    raises at line 59, before the filter on [page] and before the User table
    is built: no user table is written, although the builder of lines 63-65
    would give two rows on its [NextSong] events. *)
Lemma users_table_never_written :
  process_log_data local_session "in/" "out/" sample_fs
  = (sample_fs, Raise (UnboundLocalError "df")) ∧
  sample_fs !! "out/users.parquet" = None ∧
  ∃ users, users_table local_session (frame log_data_schema [play_a; play_anonymous; play_a_paid])
           = Ok users ∧
           rows users = [DF.project users_table_schema play_a;
                         DF.project users_table_schema play_a_paid].
Proof.
  split; [by apply process_log_data_run with (d := sample_log_data)|].
  split; [reflexivity|].
  eexists. split; vm_compute; reflexivity.
Qed.

(** C6.  The time table of lines 72-82, built from events [df] with a [ts]
    column: [start_time] is [to_timestamp(ts / 1000.0)], the quotient of [ts]
    by 1000 taken as seconds since the epoch; the table has the start time
    of every event and no other, each in exactly one row; and a row whose
    start time is an instant carries its hour (0-23), day of month (1-31),
    ISO week (1-53), month (1-12), year and weekday, numbered from 1 for
    Sunday to 7 for Saturday. *)
Theorem time_table_one_row_per_start_time spark df :
  unique_in (columns df) "ts" → "start_time" ∉ columns df →
  ∃ df' t,
    with_start_time spark df = Ok df' ∧
    time_table spark df' = Ok t ∧
    columns t = time_table_schema ∧
    (∀ e n, get e "ts" = Long n →
       start_time_of e
       = Sql.cast_timestamp (Double (Binary64.div (Binary64.of_Z n) (Binary64.of_Z 1000)))) ∧
    (∀ v, v ∈ (λ r, get r "start_time") <$> rows t ↔ ∃ e, e ∈ rows df ∧ v = start_time_of e) ∧
    NoDup ((λ r, get r "start_time") <$> rows t) ∧
    (∀ r, r ∈ rows t → r = time_row (timeZone spark) (get r "start_time")) ∧
    (∀ r μ, r ∈ rows t → get r "start_time" = Timestamp μ →
       ∃ h d w m y wd,
         get r "hour" = Long h ∧ 0 ≤ h ≤ 23 ∧
         get r "day" = Long d ∧ 1 ≤ d ≤ 31 ∧
         get r "week" = Long w ∧ 1 ≤ w ≤ 53 ∧
         get r "month" = Long m ∧ 1 ≤ m ≤ 12 ∧
         get r "year" = Long y ∧
         get r "weekday" = Long wd ∧
         1 ≤ wd ≤ 7 ∧
         let name := Calendar.name_of_day (Calendar.local_day (timeZone spark) μ) in
         wd = Calendar.number_of_name name ∧
         (wd = 1 ↔ name = Calendar.Sunday) ∧ (wd = 7 ↔ name = Calendar.Saturday)).
Proof.
  intros Hts Hst.
  destruct (with_start_time_rows spark df Hts Hst) as (df' & Hdf' & Hc' & Hr').
  destruct (time_table_rows spark df') as (t & Ht & Hct & Hrt).
  { rewrite Hc'. by apply not_elem_unique_app. }
  exists df', t. split; [done|]. split; [done|]. split; [done|].
  assert (∀ r, r ∈ remove_dups (DF.project ["start_time"] <$> rows df') ↔
               ∃ e, e ∈ rows df ∧ r = [("start_time", start_time_of e)]) as Hsel.
  { intros r. rewrite elem_of_remove_dups, Hr', <- list_fmap_compose, list_elem_of_fmap.
    split; intros (e & H1 & H2); exists e; simpl in *.
    - split; [done|]. rewrite H1. unfold DF.project. csimpl. by rewrite get_set_field.
    - split; [|done]. rewrite H2. unfold DF.project. csimpl. by rewrite get_set_field. }
  assert (∀ r, r ∈ rows t ↔ ∃ e, e ∈ rows df ∧ r = time_row (timeZone spark) (start_time_of e))
    as Hrows.
  { intros r. rewrite Hrt, list_elem_of_fmap. split.
    - intros (r0 & -> & (e & He & ->)%Hsel). eauto.
    - intros (e & He & ->). exists [("start_time", start_time_of e)].
      split; [done|]. apply Hsel. eauto. }
  split.
  { intros e n Hn. unfold start_time_of. by rewrite Hn. }
  split.
  { intros v. rewrite list_elem_of_fmap. split.
    - intros (r & -> & (e & He & ->)%Hrows). eauto.
    - intros (e & He & ->). exists (time_row (timeZone spark) (start_time_of e)).
      split; [done|]. apply Hrows. eauto. }
  split.
  { rewrite Hrt, <- list_fmap_compose.
    apply NoDup_fmap_2_strong; [|apply NoDup_remove_dups].
    intros r1 r2 (e1 & _ & ->)%Hsel (e2 & _ & ->)%Hsel. simpl.
    unfold get. simpl. by intros ->. }
  split.
  { intros r (e & _ & ->)%Hrows. reflexivity. }
  intros r μ (e & _ & ->)%Hrows Hμ.
  change (get (time_row (timeZone spark) (start_time_of e)) "start_time")
    with (start_time_of e) in Hμ.
  unfold time_row. rewrite Hμ. unfold get. simpl.
  exists (Calendar.hour_of (timeZone spark) μ), (Calendar.dayofmonth_of (timeZone spark) μ),
    (Calendar.weekofyear_of (timeZone spark) μ), (Calendar.month_of (timeZone spark) μ),
    (Calendar.year_of (timeZone spark) μ), (Calendar.dayofweek_of (timeZone spark) μ).
  split; [done|]. split; [apply hour_of_range|].
  split; [done|]. split; [apply dayofmonth_of_range|].
  split; [done|]. split; [apply weekofyear_of_range|].
  split; [done|]. split; [apply month_of_range|].
  split; [done|]. split; [done|]. split; [apply dayofweek_of_range|].
  split; [done|]. apply number_of_name_ends.
Qed.

(** C6 on three plays, two of them at the same instant, 2018-11-05 17:46:40
    UTC, a Monday in week 45. *)
Lemma time_table_one_row_per_start_time_witness :
  let df := frame log_data_schema [play_a; play_unknown; play_a_paid] in
  unique_in (columns df) "ts" ∧ ("start_time" ∉ columns df) ∧
  ∃ df' t,
    with_start_time local_session df = Ok df' ∧
    time_table local_session df' = Ok t ∧
    NoDup ((λ r, get r "start_time") <$> rows t) ∧
    time_row (timeZone local_session) (Timestamp 1541440000000000) ∈ rows t ∧
    time_row (timeZone local_session) (Timestamp 1541440000000000)
    = [("start_time", Timestamp 1541440000000000); ("hour", Long 17); ("day", Long 5);
       ("week", Long 45); ("month", Long 11); ("year", Long 2018); ("weekday", Long 2)].
Proof.
  intros df. split; [reflexivity|]. split; [not_in_list|].
  destruct (time_table_one_row_per_start_time local_session df)
    as (df' & t & Hdf' & Ht & _ & _ & Hin & Hnd & Hrow & _); [reflexivity|not_in_list|].
  exists df', t. repeat split; try done.
  assert (Timestamp 1541440000000000 ∈ (λ r, get r "start_time") <$> rows t) as H.
  { apply Hin. exists play_a. split; [in_list|reflexivity]. }
  apply list_elem_of_fmap in H as (r & Hr & Hrt).
  rewrite Hr. rewrite <- (Hrow r Hrt). exact Hrt.
Defined.

(** C7, the code at a failing input (scenario A).  The join pairs the play of
    'Title A' with the Song row of that title and its ids, but the
    expression of the songplays table then raises [TypeError]:
    [date_format] is called without its [format] on line 94.  No Songplay
    row is produced. *)
Lemma scenario_A_no_songplay_row :
  let songs_df := song_dimension [song_a] in
  ∃ df j,
    with_start_time local_session (frame log_data_schema [play_a]) = Ok df ∧
    songplays_joined local_session df songs_df = Ok j ∧
    (λ r, (get r "song", get r "song_id", get r "artist_id")) <$> rows j
    = [(Str "Title A", Str "SOX1", Str "ARX1")] ∧
    songplays_table local_session df songs_df
    = Raise (TypeError "date_format() missing 1 required positional argument: 'format'").
Proof. intros songs_df. eexists _, _. repeat split; vm_compute; reflexivity. Qed.

(** C8.  On a song collection with the columns the script selects,
    [process_song_data] writes an artists table that is built from the raw
    records that pass the null filter of the Song builder (neither [song_id]
    nor [artist_id] missing), has exactly the five artist columns, holds
    each projected row once, so that equal raw artist rows collapse to one
    row, and is partitioned by [artist_location]. *)
Theorem artists_table_built spark input_data output_data fs d :
  fs !! (input_data +:+ "song_data") = Some d →
  song_data_columns (schema d) →
  ∃ fs' songs artists,
    process_song_data spark input_data output_data fs = (fs', Ok ()) ∧
    fs' !! (output_data +:+ "songs.parquet") = Some songs ∧
    fs' !! (output_data +:+ "artists.parquet") = Some artists ∧
    (* the same null filter as the Song builder *)
    (∀ r, r ∈ records songs ↔
          ∃ raw, raw ∈ records d ∧ keys_present ["song_id"; "artist_id"] raw ∧
                 r = DF.project song_table_schema raw) ∧
    (∀ r, r ∈ records artists ↔
          ∃ raw, raw ∈ records d ∧ keys_present ["song_id"; "artist_id"] raw ∧
                 r = DF.project artist_table_schema raw) ∧
    (* exactly the five columns *)
    schema artists = artist_table_schema ∧
    (∀ r, r ∈ records artists → r.*1 = artist_table_schema) ∧
    (* equal rows collapse *)
    NoDup (records artists) ∧
    (∀ raw, raw ∈ records d → keys_present ["song_id"; "artist_id"] raw →
       length (filter (λ r, r = DF.project artist_table_schema raw) (records artists)) = 1%nat) ∧
    (* partitioned by location *)
    partitionBy artists = ["artist_location"].
Proof.
  intros Hfs Hcols.
  destruct (process_song_data_run spark input_data output_data fs d Hfs Hcols)
    as (songs & artists & Hs & Ha & _ & _ & Hrun).
  pose proof Hcols as Hcols'. apply Forall_app in Hcols' as [Hcs Hca].
  assert (Forall (unique_in (columns (scan spark d))) ["song_id"; "artist_id"]) as Hk.
  { repeat constructor; eapply unique_in_sub; try exact Hcs; in_list. }
  assert (∀ r, r ∈ rows artists ↔
          ∃ raw, raw ∈ records d ∧ keys_present ["song_id"; "artist_id"] raw ∧
                 r = DF.project artist_table_schema raw) as Hchar.
  { intros r. rewrite (dimension_elem_of _ _ _ _ _ Ha Hk Hca).
    by setoid_rewrite rows_scan. }
  pose proof (dimension_NoDup _ _ _ _ _ Ha Hk Hca) as Hnd.
  eexists _, _, _. split; [exact Hrun|].
  split.
  { rewrite lookup_insert_ne; [apply lookup_insert_eq|].
    intros E%append_inj_l. discriminate. }
  split; [apply lookup_insert_eq|]. simpl.
  split.
  { intros r. rewrite (dimension_elem_of _ _ _ _ _ Hs Hk Hcs).
    by setoid_rewrite rows_scan. }
  split; [exact Hchar|].
  split; [done|].
  split.
  { intros r (raw & _ & _ & ->)%Hchar. apply project_fields. }
  split; [exact Hnd|].
  split; [|done].
  intros raw Hraw Hp. apply NoDup_count; [done|]. apply Hchar. eauto.
Qed.

(** C8 on the sample file system, where [song_a] occurs twice (scenario C). *)
Lemma artists_table_built_witness :
  sample_fs !! ("in/" +:+ "song_data") = Some sample_song_data ∧
  song_data_columns (schema sample_song_data) ∧
  ∃ fs' artists,
    process_song_data local_session "in/" "out/" sample_fs = (fs', Ok ()) ∧
    fs' !! ("out/" +:+ "artists.parquet") = Some artists ∧
    schema artists = artist_table_schema ∧
    partitionBy artists = ["artist_location"] ∧
    length (filter (λ r, r = DF.project artist_table_schema song_a) (records artists)) = 1%nat.
Proof.
  split; [reflexivity|]. split; [repeat constructor|].
  destruct (artists_table_built local_session "in/" "out/" sample_fs sample_song_data)
    as (fs' & songs & artists & Hrun & _ & Ha & _ & _ & Hschema & _ & _ & Hone & Hpart);
    [reflexivity|repeat constructor|].
  exists fs', artists. repeat split; try done.
  apply Hone; [in_list|repeat constructor].
Defined.

(** C9.  The builders deduplicate on the whole projected row, not on the key:
    of the records that reach the deduplication (those that pass the null
    filter), two that share the key ([song_id] in the Song builder of lines
    31-33, [artist_id] in the Artist builder of lines 41-43, [userId] in the
    User builder of lines 63-65) but differ in a projected column both
    appear in the table, as two distinct rows with the same key. *)
Theorem deduplication_is_on_full_rows spark (song_data log_data : DataFrame) :
  Forall (unique_in (columns song_data)) song_table_schema →
  Forall (unique_in (columns song_data)) artist_table_schema →
  Forall (unique_in (columns log_data)) users_table_schema →
  (∃ t, songs_table spark song_data = Ok t ∧
     ∀ r1 r2, r1 ∈ rows song_data → r2 ∈ rows song_data →
       keys_present ["song_id"; "artist_id"] r1 →
       keys_present ["song_id"; "artist_id"] r2 →
       get r1 "song_id" = get r2 "song_id" →
       (∃ c, c ∈ song_table_schema ∧ get r1 c ≠ get r2 c) →
       let o1 := DF.project song_table_schema r1 in
       let o2 := DF.project song_table_schema r2 in
       o1 ∈ rows t ∧ o2 ∈ rows t ∧ o1 ≠ o2 ∧ get o1 "song_id" = get o2 "song_id") ∧
  (∃ t, artists_table spark song_data = Ok t ∧
     ∀ r1 r2, r1 ∈ rows song_data → r2 ∈ rows song_data →
       keys_present ["song_id"; "artist_id"] r1 →
       keys_present ["song_id"; "artist_id"] r2 →
       get r1 "artist_id" = get r2 "artist_id" →
       (∃ c, c ∈ artist_table_schema ∧ get r1 c ≠ get r2 c) →
       let o1 := DF.project artist_table_schema r1 in
       let o2 := DF.project artist_table_schema r2 in
       o1 ∈ rows t ∧ o2 ∈ rows t ∧ o1 ≠ o2 ∧ get o1 "artist_id" = get o2 "artist_id") ∧
  (∃ t, users_table spark log_data = Ok t ∧
     ∀ r1 r2, r1 ∈ rows log_data → r2 ∈ rows log_data →
       keys_present ["userId"; "firstName"] r1 →
       keys_present ["userId"; "firstName"] r2 →
       get r1 "userId" = get r2 "userId" →
       (∃ c, c ∈ users_table_schema ∧ get r1 c ≠ get r2 c) →
       let o1 := DF.project users_table_schema r1 in
       let o2 := DF.project users_table_schema r2 in
       o1 ∈ rows t ∧ o2 ∈ rows t ∧ o1 ≠ o2 ∧ get o1 "userId" = get o2 "userId").
Proof.
  intros Hs Ha Hu.
  assert (Forall (unique_in (columns song_data)) ["song_id"; "artist_id"]) as Hks.
  { repeat constructor; eapply unique_in_sub; try exact Hs; in_list. }
  split; [|split].
  - destruct (dimension_keeps_distinct _ _ spark _ Hks Hs) as (t & Ht & H).
    exists t. split; [exact Ht|].
    intros r1 r2 H1 H2 P1 P2 Hid Hd o1 o2.
    destruct (H r1 r2 H1 H2 P1 P2 Hd) as (? & ? & ?).
    subst o1 o2. rewrite !get_project by in_list. done.
  - destruct (dimension_keeps_distinct _ _ spark _ Hks Ha) as (t & Ht & H).
    exists t. split; [exact Ht|].
    intros r1 r2 H1 H2 P1 P2 Hid Hd o1 o2.
    destruct (H r1 r2 H1 H2 P1 P2 Hd) as (? & ? & ?).
    subst o1 o2. rewrite !get_project by in_list. done.
  - assert (Forall (unique_in (columns log_data)) ["userId"; "firstName"]) as Hk.
    { repeat constructor; eapply unique_in_sub; try exact Hu; in_list. }
    destruct (dimension_keeps_distinct _ _ spark _ Hk Hu) as (t & Ht & H).
    exists t. split; [exact Ht|].
    intros r1 r2 H1 H2 P1 P2 Hid Hd o1 o2.
    destruct (H r1 r2 H1 H2 P1 P2 Hd) as (? & ? & ?).
    subst o1 o2. rewrite !get_project by in_list. done.
Qed.

(** C9 on two records of one song with two titles and two plays of one user
    at two levels. *)
Lemma deduplication_is_on_full_rows_witness :
  Forall (unique_in (columns (frame song_data_schema [song_a; song_a_live]))) song_table_schema ∧
  Forall (unique_in (columns (frame song_data_schema [song_a; song_a_live]))) artist_table_schema ∧
  Forall (unique_in (columns (frame log_data_schema [play_a; play_a_paid]))) users_table_schema ∧
  (∃ t, songs_table local_session (frame song_data_schema [song_a; song_a_live]) = Ok t ∧
        DF.project song_table_schema song_a ∈ rows t ∧
        DF.project song_table_schema song_a_live ∈ rows t ∧
        DF.project song_table_schema song_a ≠ DF.project song_table_schema song_a_live) ∧
  (∃ t, users_table local_session (frame log_data_schema [play_a; play_a_paid]) = Ok t ∧
        DF.project users_table_schema play_a ∈ rows t ∧
        DF.project users_table_schema play_a_paid ∈ rows t ∧
        DF.project users_table_schema play_a ≠ DF.project users_table_schema play_a_paid).
Proof.
  split; [repeat constructor|]. split; [repeat constructor|]. split; [repeat constructor|].
  destruct (deduplication_is_on_full_rows local_session
              (frame song_data_schema [song_a; song_a_live])
              (frame log_data_schema [play_a; play_a_paid]))
    as ((t1 & Ht1 & H1) & _ & (t2 & Ht2 & H2));
    [repeat constructor|repeat constructor|repeat constructor|].
  split.
  - exists t1. split; [done|].
    destruct (H1 song_a song_a_live) as (? & ? & ? & _); try done.
    + in_list.
    + in_list.
    + repeat constructor.
    + repeat constructor.
    + exists "title". split; [in_list|discriminate].
  - exists t2. split; [done|].
    destruct (H2 play_a play_a_paid) as (? & ? & ? & _); try done.
    + in_list.
    + in_list.
    + repeat constructor.
    + repeat constructor.
    + exists "level". split; [in_list|discriminate].
Defined.

(** C10, the code at a failing input.  For a play without [userId], the User
    builder gives no row and the time table has its start time, but the
    expression of the songplays table raises [TypeError] (line 94), and
    [process_log_data] raises at line 59: no Songplay row is produced. *)
Lemma anonymous_play_no_songplay_row :
  let events := frame log_data_schema [play_anonymous] in
  let songs_df := song_dimension [song_a] in
  ∃ users df time,
    users_table local_session events = Ok users ∧ rows users = [] ∧
    with_start_time local_session events = Ok df ∧
    time_table local_session df = Ok time ∧
    (λ r, get r "start_time") <$> rows time = [Timestamp 1541440600000000] ∧
    songplays_table local_session df songs_df
    = Raise (TypeError "date_format() missing 1 required positional argument: 'format'") ∧
    process_log_data local_session "in/" "out/" sample_fs
    = (sample_fs, Raise (UnboundLocalError "df")).
Proof.
  intros events songs_df. eexists _, _, _.
  split; [vm_compute; reflexivity|].
  split; [vm_compute; reflexivity|].
  split; [vm_compute; reflexivity|].
  split; [vm_compute; reflexivity|].
  split; [vm_compute; reflexivity|].
  split; [vm_compute; reflexivity|].
  by apply process_log_data_run with (d := sample_log_data).
Qed.

(** * Further properties of the script *)

(** ** [main] *)

Lemma getitem_missing config key w :
  key ≠ "DEFAULT" → config !! key = None →
  Config.getitem config key w = (w, Raises (KeyError key)).
Proof. intros. unfold Config.getitem. by rewrite decide_True. Qed.

Lemma getitem_section config key w :
  is_Some (config !! key) →
  Config.getitem config key w = (w, Returns {| section_name := key |}).
Proof.
  intros [o Ho]. unfold Config.getitem. rewrite decide_False; [done|].
  intros [_ ?]. congruence.
Qed.

(** X1.  [main] (lines 106-122) never gets as far as a session: whatever
    [dl.cfg] holds, it raises, and the environment and the data are as
    they were.  A file that does not parse raises an error of
    [configparser]; with no file, or without a section named
    [AWS_ACCESS_KEY_ID], the lookup of line 113 raises [KeyError]; with that
    section, the assignment of line 113 raises [TypeError], for the value is
    a section proxy and [os.environ] takes strings only. *)
Theorem main_never_starts cluster dl_cfg w :
  ∃ e, main cluster dl_cfg w = (w, Raises e) ∧
    (dl_cfg = Malformed → e = ConfigParserError) ∧
    (dl_cfg = NoFile → e = KeyError "AWS_ACCESS_KEY_ID") ∧
    (∀ s, dl_cfg = Sections s →
       (s !! "AWS_ACCESS_KEY_ID" = None → e = KeyError "AWS_ACCESS_KEY_ID") ∧
       (is_Some (s !! "AWS_ACCESS_KEY_ID") →
        e = Raised (TypeError "str expected, not SectionProxy"))).
Proof.
  unfold main, mbind, P_bind.
  destruct dl_cfg as [| |s]; cbn [Config.read].
  - rewrite getitem_missing by done.
    eexists. split; [reflexivity|]. split; [done|]. split; [done|]. done.
  - eexists. split; [reflexivity|]. split; [done|]. split; [done|]. done.
  - destruct (s !! "AWS_ACCESS_KEY_ID") as [o|] eqn:E.
    + rewrite getitem_section by (by rewrite E). cbn [environ_setitem].
      eexists. split; [reflexivity|]. split; [done|]. split; [done|].
      intros s' [= <-]. split; [congruence|done].
    + rewrite getitem_missing by done.
      eexists. split; [reflexivity|]. split; [done|]. split; [done|].
      intros s' [= <-]. split; [done|]. rewrite E. by intros [? ?].
Qed.

(** X1 on a file that has the four sections [main] asks for. *)
Lemma main_never_starts_witness :
  main (λ _, local_session) dl_cfg_sections sample_world
  = (sample_world, Raises (Raised (TypeError "str expected, not SectionProxy"))).
Proof.
  destruct (main_never_starts (λ _, local_session) dl_cfg_sections sample_world)
    as (e & Hrun & _ & _ & Hs).
  destruct (Hs _ eq_refl) as [_ He].
  rewrite Hrun, He; [done|]. eexists. apply lookup_insert_eq.
Defined.

(** ** When the builders fail *)

Section Failures.
Implicit Types (cols cs : list string) (df : DataFrame).

Lemma resolve_name_cases cols c :
  (DF.resolve_name cols c = Ok () ∧ unique_in cols c) ∨
  (∃ msg, DF.resolve_name cols c = Raise (AnalysisException msg) ∧ ¬ unique_in cols c).
Proof.
  unfold DF.resolve_name, unique_in.
  destruct (length (filter (λ x, x = c) cols)) as [|[|n]].
  - right. eexists. split; [reflexivity|]. lia.
  - left. done.
  - right. eexists. split; [reflexivity|]. lia.
Qed.

Lemma resolve_names_cases cols cs :
  (DF.resolve_names cols cs = Ok () ∧ Forall (unique_in cols) cs) ∨
  (∃ msg, DF.resolve_names cols cs = Raise (AnalysisException msg) ∧
          ¬ Forall (unique_in cols) cs).
Proof.
  induction cs as [|c cs IH].
  - left. split; [done|constructor].
  - simpl. destruct (resolve_name_cases cols c) as [[-> Hc]|(msg & -> & Hc)].
    + simpl. destruct IH as [[-> H]|(msg & -> & H)].
      * left. split; [done|by constructor].
      * right. exists msg. split; [done|]. by intros [_ ?]%Forall_cons.
    + right. exists msg. split; [done|]. by intros [? _]%Forall_cons.
Qed.

Lemma dimension_cases keys cols spark df :
  (∃ t, dimension keys cols spark df = Ok t) ∧
    Forall (unique_in (columns df)) keys ∧ Forall (unique_in (columns df)) cols
  ∨
  (∃ msg, dimension keys cols spark df = Raise (AnalysisException msg)) ∧
    ¬ (Forall (unique_in (columns df)) keys ∧ Forall (unique_in (columns df)) cols).
Proof.
  destruct (resolve_names_cases (columns df) keys) as [[Hk Uk]|(msg & Hk & Uk)].
  - destruct (resolve_names_cases (columns df) cols) as [[Hc Uc]|(msg & Hc & Uc)].
    + left. destruct (dimension_rows keys cols spark df Uk Uc) as (t & Ht & _).
      split; [by exists t|done].
    + right. split; [|by intros [_ ?]].
      exists msg. unfold dimension, DF.dropna. rewrite Hk. simpl.
      unfold DF.select. simpl. by rewrite Hc.
  - right. split; [|by intros [? _]].
    exists msg. unfold dimension, DF.dropna. by rewrite Hk.
Qed.

Lemma dimension_returns_iff keys cols spark df :
  (∃ t, dimension keys cols spark df = Ok t) ↔
  Forall (unique_in (columns df)) keys ∧ Forall (unique_in (columns df)) cols.
Proof.
  destruct (dimension_cases keys cols spark df) as [[Ht U]|[[msg Hm] N]].
  - split; [done|]. by intros _.
  - split; [|done]. intros [t Ht]. congruence.
Qed.

Lemma dimension_raises keys cols spark df :
  (∀ t, dimension keys cols spark df ≠ Ok t) →
  ∃ msg, dimension keys cols spark df = Raise (AnalysisException msg).
Proof.
  intros H. destruct (dimension_cases keys cols spark df) as [[[t Ht] _]|[Hm _]]; [|done].
  by destruct (H t).
Qed.
End Failures.

(** X2.  Each of the three builders returns a table exactly when every column
    it names resolves to one column of its input: the five Song columns for
    the Song builder (lines 31-33), [song_id] and the five Artist columns
    for the Artist builder (lines 41-43), the five User columns for the User
    builder (lines 63-65).  When it does not return, what it raises is an
    [AnalysisException]. *)
Theorem builders_return_iff_columns_resolve spark df :
  ((∃ t, songs_table spark df = Ok t) ↔ Forall (unique_in (columns df)) song_table_schema) ∧
  ((∃ t, artists_table spark df = Ok t) ↔
     Forall (unique_in (columns df)) ("song_id" :: artist_table_schema)) ∧
  ((∃ t, users_table spark df = Ok t) ↔ Forall (unique_in (columns df)) users_table_schema) ∧
  ((∀ t, songs_table spark df ≠ Ok t) → ∃ msg, songs_table spark df = Raise (AnalysisException msg)) ∧
  ((∀ t, artists_table spark df ≠ Ok t) →
     ∃ msg, artists_table spark df = Raise (AnalysisException msg)) ∧
  ((∀ t, users_table spark df ≠ Ok t) → ∃ msg, users_table spark df = Raise (AnalysisException msg)).
Proof.
  change (songs_table spark df) with (dimension ["song_id"; "artist_id"] song_table_schema spark df).
  change (artists_table spark df) with (dimension ["song_id"; "artist_id"] artist_table_schema spark df).
  change (users_table spark df) with (dimension ["userId"; "firstName"] users_table_schema spark df).
  rewrite !dimension_returns_iff.
  split; [|split; [|split; [|split; [|split]]]]; try apply dimension_raises.
  - split; [by intros [_ ?]|]. intros H. split; [|done].
    repeat constructor; eapply unique_in_sub; try exact H; in_list.
  - split.
    + intros [K U]. constructor; [|done]. by apply Forall_cons in K as [? _].
    + intros [K U]%Forall_cons. split; [|done].
      repeat constructor; [done|]. eapply unique_in_sub; [exact U|in_list].
  - split; [by intros [_ ?]|]. intros H. split; [|done].
    repeat constructor; eapply unique_in_sub; try exact H; in_list.
Qed.

(** ** The runs of [process_song_data] *)

Section SongRun.
Implicit Types (fs : gmap string Dataset).

Lemma write_parquet_frame mode cols path df fs p :
  p ≠ path → (IO.write_parquet mode cols path df fs).1 !! p = fs !! p.
Proof.
  intros Hp. unfold IO.write_parquet.
  destruct (DF.resolve_names _ _); [|done].
  destruct mode, (fs !! path); simpl; by rewrite ?lookup_insert_ne.
Qed.

Lemma write_parquet_cases cols path df fs :
  (Forall (unique_in (columns df)) cols ∧
   IO.write_parquet overwrite cols path df fs =
     (<[path := {| partitionBy := cols; schema := columns df; records := rows df |}]> fs, Ok ()))
  ∨ (∃ msg, IO.write_parquet overwrite cols path df fs = (fs, Raise (AnalysisException msg))).
Proof.
  unfold IO.write_parquet.
  destruct (resolve_names_cases (columns df) cols) as [[-> U]|(msg & -> & _)].
  - left. done.
  - right. by exists msg.
Qed.

Lemma dimension_columns keys cols spark df t :
  dimension keys cols spark df = Ok t → columns t = cols.
Proof.
  intros Ht.
  destruct (dimension_cases keys cols spark df) as [[_ [Uk Uc]]|[[msg Hm] _]]; [|congruence].
  destruct (dimension_rows keys cols spark df Uk Uc) as (t' & Ht' & Hc & _). congruence.
Qed.
End SongRun.

(** X3.  Whatever its outcome, [process_song_data] leaves every path but
    [songs.parquet] and [artists.parquet] under the output root as it was. *)
Theorem process_song_data_touches_only_its_tables spark input_data output_data fs p :
  p ≠ output_data +:+ "songs.parquet" → p ≠ output_data +:+ "artists.parquet" →
  (process_song_data spark input_data output_data fs).1 !! p = fs !! p.
Proof.
  intros Hs Ha. unfold process_song_data, mbind, M_bind, IO.read_json, lift.
  destruct (fs !! (input_data +:+ "song_data")) as [d|]; [|done].
  destruct (songs_table spark _) as [songs|e]; [|done].
  pose proof (write_parquet_frame overwrite ["year"; "artist_id"]
                (output_data +:+ "songs.parquet") songs fs p Hs) as H1.
  destruct (IO.write_parquet overwrite ["year"; "artist_id"] _ songs fs) as [fs1 [[]|e]];
    simpl in H1; [|done].
  destruct (artists_table spark _) as [artists|e]; [|done].
  pose proof (write_parquet_frame overwrite ["artist_location"]
                (output_data +:+ "artists.parquet") artists fs1 p Ha) as H2.
  destruct (IO.write_parquet overwrite ["artist_location"] _ artists fs1) as [fs2 [[]|e]];
    simpl in H2; simpl; congruence.
Qed.

(** X3 on the sample file system: the log collection is as it was. *)
Lemma process_song_data_touches_only_its_tables_witness :
  "in/log_data" ≠ "out/" +:+ "songs.parquet" ∧
  "in/log_data" ≠ "out/" +:+ "artists.parquet" ∧
  (process_song_data local_session "in/" "out/" sample_fs).1 !! "in/log_data"
  = sample_fs !! "in/log_data".
Proof.
  split; [discriminate|]. split; [discriminate|].
  apply process_song_data_touches_only_its_tables; discriminate.
Defined.

(** X4.  [process_song_data] fails before its first write, leaving the file
    system as it was, in two cases: the song collection is missing (the read
    of line 27 raises "Path does not exist"), or a column of the Song table
    does not resolve (the builder of lines 31-33 raises
    [AnalysisException]). *)
Theorem process_song_data_fails_clean spark input_data output_data fs :
  (fs !! (input_data +:+ "song_data") = None →
   process_song_data spark input_data output_data fs
   = (fs, Raise (AnalysisException ("Path does not exist: " +:+ input_data +:+ "song_data")))) ∧
  (∀ d, fs !! (input_data +:+ "song_data") = Some d →
        ¬ Forall (unique_in (schema d)) song_table_schema →
        ∃ msg, process_song_data spark input_data output_data fs
               = (fs, Raise (AnalysisException msg))).
Proof.
  split.
  - intros H. unfold process_song_data, mbind, M_bind, IO.read_json. by rewrite H.
  - intros d Hd Hn. unfold process_song_data, mbind, M_bind.
    rewrite (read_json_run _ _ _ _ Hd). unfold lift.
    change (songs_table spark (scan spark d))
      with (dimension ["song_id"; "artist_id"] song_table_schema spark (scan spark d)).
    destruct (dimension_cases ["song_id"; "artist_id"] song_table_schema spark (scan spark d))
      as [[_ [_ U]]|[[msg ->] _]]; [done|].
    by exists msg.
Qed.

(** X5.  When the Song columns resolve and an Artist column does not,
    [process_song_data] fails between its two writes: [songs.parquet] has
    been written (line 37), the Artist builder raises [AnalysisException]
    (lines 41-43), and no artists table is written. *)
Theorem process_song_data_partial_output spark input_data output_data fs d :
  fs !! (input_data +:+ "song_data") = Some d →
  Forall (unique_in (schema d)) song_table_schema →
  ¬ Forall (unique_in (schema d)) artist_table_schema →
  ∃ songs msg,
    songs_table spark (scan spark d) = Ok songs ∧
    process_song_data spark input_data output_data fs
    = (<[output_data +:+ "songs.parquet" :=
           {| partitionBy := ["year"; "artist_id"]; schema := song_table_schema;
              records := rows songs |}]> fs,
       Raise (AnalysisException msg)).
Proof.
  intros Hd Us Na.
  assert (Forall (unique_in (columns (scan spark d))) ["song_id"; "artist_id"]) as Hk.
  { repeat constructor; eapply unique_in_sub; try exact Us; in_list. }
  destruct (dimension_rows ["song_id"; "artist_id"] song_table_schema spark (scan spark d) Hk Us)
    as (songs & Hsongs & Hcs & _).
  destruct (dimension_cases ["song_id"; "artist_id"] artist_table_schema spark (scan spark d))
    as [[_ [_ U]]|[[msg Hm] _]]; [done|].
  exists songs, msg. split; [exact Hsongs|].
  unfold process_song_data, mbind, M_bind.
  rewrite (read_json_run _ _ _ _ Hd). unfold lift.
  change (songs_table spark (scan spark d))
    with (dimension ["song_id"; "artist_id"] song_table_schema spark (scan spark d)).
  rewrite Hsongs.
  rewrite write_parquet_overwrite by (rewrite Hcs; repeat constructor).
  change (artists_table spark (scan spark d))
    with (dimension ["song_id"; "artist_id"] artist_table_schema spark (scan spark d)).
  rewrite Hm. by rewrite Hcs.
Qed.

(** X5 on a collection that has the Song columns only. *)
Lemma process_song_data_partial_output_witness :
  let fs : FileSystem := {[ "in/song_data" := songs_only_data ]} in
  fs !! ("in/" +:+ "song_data") = Some songs_only_data ∧
  Forall (unique_in (schema songs_only_data)) song_table_schema ∧
  ¬ Forall (unique_in (schema songs_only_data)) artist_table_schema ∧
  ∃ songs msg,
    process_song_data local_session "in/" "out/" fs
    = (<["out/" +:+ "songs.parquet" :=
           {| partitionBy := ["year"; "artist_id"]; schema := song_table_schema;
              records := rows songs |}]> fs,
       Raise (AnalysisException msg)).
Proof.
  intros fs.
  assert (fs !! ("in/" +:+ "song_data") = Some songs_only_data) as Hfs
    by apply lookup_singleton_eq.
  assert (Forall (unique_in (schema songs_only_data)) song_table_schema) as Hs
    by (repeat constructor).
  assert (¬ Forall (unique_in (schema songs_only_data)) artist_table_schema) as Ha.
  { intros H. apply Forall_cons in H as [_ H]. apply Forall_cons in H as [H _].
    discriminate H. }
  split; [exact Hfs|]. split; [exact Hs|]. split; [exact Ha|].
  destruct (process_song_data_partial_output local_session "in/" "out/" fs songs_only_data
              Hfs Hs Ha) as (songs & msg & _ & Hrun).
  by exists songs, msg.
Defined.

(** X6.  With the song collection elsewhere than at the two output paths,
    running [process_song_data] a second time on the file system the first
    run left succeeds and changes nothing: the writes are in mode
    [overwrite]. *)
Theorem process_song_data_rerun spark input_data output_data fs d :
  fs !! (input_data +:+ "song_data") = Some d →
  song_data_columns (schema d) →
  input_data +:+ "song_data" ≠ output_data +:+ "songs.parquet" →
  input_data +:+ "song_data" ≠ output_data +:+ "artists.parquet" →
  ∃ fs', process_song_data spark input_data output_data fs = (fs', Ok ()) ∧
         process_song_data spark input_data output_data fs' = (fs', Ok ()).
Proof.
  intros Hd Hcols Hs Ha.
  destruct (process_song_data_run spark input_data output_data fs d Hd Hcols)
    as (songs & artists & Hsongs & Hartists & _ & _ & Hrun).
  eexists. split; [exact Hrun|].
  match goal with |- process_song_data _ _ _ ?fs' = _ =>
    destruct (process_song_data_run spark input_data output_data fs' d) as
      (songs' & artists' & Hsongs' & Hartists' & _ & _ & Hrun'); [|done|]
  end.
  { by rewrite !lookup_insert_ne. }
  rewrite Hrun'. f_equal.
  assert (songs' = songs) as -> by congruence.
  assert (artists' = artists) as -> by congruence.
  rewrite (insert_insert_ne _ (output_data +:+ "songs.parquet") (output_data +:+ "artists.parquet"))
    by (intros E%append_inj_l; discriminate).
  rewrite insert_insert_eq.
  f_equal.
  by rewrite insert_insert_eq.
Qed.

(** X6 on the sample file system. *)
Lemma process_song_data_rerun_witness :
  sample_fs !! ("in/" +:+ "song_data") = Some sample_song_data ∧
  song_data_columns (schema sample_song_data) ∧
  "in/" +:+ "song_data" ≠ "out/" +:+ "songs.parquet" ∧
  "in/" +:+ "song_data" ≠ "out/" +:+ "artists.parquet" ∧
  ∃ fs', process_song_data local_session "in/" "out/" sample_fs = (fs', Ok ()) ∧
         process_song_data local_session "in/" "out/" fs' = (fs', Ok ()).
Proof.
  split; [reflexivity|]. split; [repeat constructor|].
  split; [discriminate|]. split; [discriminate|].
  apply (process_song_data_rerun local_session "in/" "out/" sample_fs sample_song_data);
    [reflexivity|repeat constructor|discriminate|discriminate].
Defined.

(** ** The tables of the builders *)

Section Builders.
Implicit Types (cols keys : list string) (df t : DataFrame) (r : Row).

Lemma length_remove_dups {A} `{EqDecision A} (l : list A) :
  (length (remove_dups l) ≤ length l)%nat.
Proof.
  induction l as [|x l IH]; [done|]. simpl. case_decide; simpl; lia.
Qed.

Lemma remove_dups_NoDup {A} `{EqDecision A} (l : list A) : NoDup l → remove_dups l = l.
Proof.
  induction 1 as [|x l Hx _ IH]; [done|]. simpl. case_decide; [done|]. by rewrite IH.
Qed.

Lemma length_filter_le {A} (f : A → bool) (l : list A) :
  (length (List.filter f l) ≤ length l)%nat.
Proof. induction l as [|x l IH]; [done|]. simpl. destruct (f x); simpl; lia. Qed.

Lemma filter_all {A} (f : A → bool) (l : list A) :
  Forall (λ x, f x = true) l → List.filter f l = l.
Proof. induction 1 as [|x l Hx _ IH]; [done|]. simpl. by rewrite Hx, IH. Qed.

Lemma project_project cols r : DF.project cols (DF.project cols r) = DF.project cols r.
Proof.
  unfold DF.project at 1 3. apply Forall_fmap_ext_1, Forall_forall.
  intros c Hc. f_equal. by apply get_project.
Qed.

Lemma dimension_length keys cols spark df t :
  dimension keys cols spark df = Ok t → (length (rows t) ≤ length (rows df))%nat.
Proof.
  intros Ht.
  destruct (dimension_cases keys cols spark df) as [[_ [Uk Uc]]|[[msg Hm] _]]; [|congruence].
  destruct (dimension_rows keys cols spark df Uk Uc) as (t' & Ht' & _ & Hr).
  assert (t' = t) as -> by congruence.
  rewrite Hr. etrans; [apply length_remove_dups|].
  rewrite length_fmap. apply length_filter_le.
Qed.

Lemma dimension_again keys cols spark df t :
  dimension keys cols spark df = Ok t →
  Forall (unique_in cols) keys → Forall (unique_in cols) cols →
  ∃ t', dimension keys cols spark t = Ok t' ∧ columns t' = cols ∧ rows t' ≡ₚ rows t.
Proof.
  intros Ht Kc Cc.
  destruct (dimension_cases keys cols spark df) as [[_ [Uk Uc]]|[[msg Hm] _]]; [|congruence].
  pose proof (dimension_columns _ _ _ _ _ Ht) as Hcols.
  pose proof (dimension_elem_of _ _ _ _ _ Ht Uk Uc) as Hin.
  pose proof (dimension_NoDup _ _ _ _ _ Ht Uk Uc) as Hnd.
  destruct (dimension_rows keys cols spark t) as (t' & Ht' & Hc' & Hr'); [by rewrite Hcols..|].
  exists t'. split; [done|]. split; [done|].
  rewrite Hr'.
  rewrite filter_all.
  - rewrite (Forall_fmap_ext_1 (DF.project cols) id).
    + rewrite list_fmap_id. by rewrite remove_dups_NoDup.
    + apply Forall_forall. intros r (raw & _ & _ & ->)%Hin. apply project_project.
  - apply Forall_forall. intros r (raw & _ & Hp & ->)%Hin.
    apply dropna_any_keeps. unfold keys_present in *.
    rewrite Forall_forall in *. intros k Hk.
    rewrite get_project by (by apply unique_in_elem, Kc). by apply Hp.
Qed.
End Builders.

(** X7.  The Song and User builders are idempotent: applied to a table they
    gave, they give the same columns and the same rows, up to their order.
    The Artist builder is not: its table has no [song_id], which its null
    filter names (line 41), so on its own table it raises
    [AnalysisException]. *)
Theorem builders_on_their_own_output spark df :
  (∀ t, songs_table spark df = Ok t →
        ∃ t', songs_table spark t = Ok t' ∧ columns t' = columns t ∧ rows t' ≡ₚ rows t) ∧
  (∀ t, users_table spark df = Ok t →
        ∃ t', users_table spark t = Ok t' ∧ columns t' = columns t ∧ rows t' ≡ₚ rows t) ∧
  (∀ t, artists_table spark df = Ok t →
        ∃ msg, artists_table spark t = Raise (AnalysisException msg)).
Proof.
  split; [|split].
  - intros t Ht.
    change (songs_table spark df) with (dimension ["song_id"; "artist_id"] song_table_schema spark df) in Ht.
    rewrite (dimension_columns _ _ _ _ _ Ht).
    apply (dimension_again _ _ _ _ _ Ht); repeat constructor.
  - intros t Ht.
    change (users_table spark df) with (dimension ["userId"; "firstName"] users_table_schema spark df) in Ht.
    rewrite (dimension_columns _ _ _ _ _ Ht).
    apply (dimension_again _ _ _ _ _ Ht); repeat constructor.
  - intros t Ht.
    change (artists_table spark df) with (dimension ["song_id"; "artist_id"] artist_table_schema spark df) in Ht.
    pose proof (dimension_columns _ _ _ _ _ Ht) as Hc.
    change (artists_table spark t) with (dimension ["song_id"; "artist_id"] artist_table_schema spark t).
    destruct (dimension_cases ["song_id"; "artist_id"] artist_table_schema spark t)
      as [[_ [Uk _]]|[Hm _]]; [|done].
    rewrite Hc in Uk. apply Forall_cons in Uk as [U _]. discriminate U.
Qed.

(** X8.  On a song collection with the columns the script selects,
    [process_song_data] writes a songs table with the five Song columns,
    partitioned by [year] and [artist_id]; every row has exactly these
    columns, no row occurs twice, every raw record with its two keys is
    there exactly once as its projection, the table has no more rows than
    the collection has records, and an empty collection gives an empty
    table. *)
Theorem songs_table_built spark input_data output_data fs d :
  fs !! (input_data +:+ "song_data") = Some d →
  song_data_columns (schema d) →
  ∃ fs' songs,
    process_song_data spark input_data output_data fs = (fs', Ok ()) ∧
    fs' !! (output_data +:+ "songs.parquet") = Some songs ∧
    schema songs = song_table_schema ∧
    partitionBy songs = ["year"; "artist_id"] ∧
    (∀ r, r ∈ records songs → r.*1 = song_table_schema) ∧
    NoDup (records songs) ∧
    (∀ raw, raw ∈ records d → keys_present ["song_id"; "artist_id"] raw →
       length (filter (λ r, r = DF.project song_table_schema raw) (records songs)) = 1%nat) ∧
    (length (records songs) ≤ length (records d))%nat ∧
    (records d = [] → records songs = []).
Proof.
  intros Hfs Hcols.
  destruct (process_song_data_run spark input_data output_data fs d Hfs Hcols)
    as (songs & artists & Hs & Ha & _ & _ & Hrun).
  pose proof Hcols as Hcols'. apply Forall_app in Hcols' as [Hcs Hca].
  assert (Forall (unique_in (columns (scan spark d))) ["song_id"; "artist_id"]) as Hk.
  { repeat constructor; eapply unique_in_sub; try exact Hcs; in_list. }
  pose proof (dimension_elem_of _ _ _ _ _ Hs Hk Hcs) as Hin.
  pose proof (dimension_NoDup _ _ _ _ _ Hs Hk Hcs) as Hnd.
  assert (length (rows songs) ≤ length (records d))%nat as Hlen.
  { pose proof (dimension_length _ _ _ _ _ Hs) as H. by rewrite rows_scan in H. }
  eexists _, _. split; [exact Hrun|].
  split.
  { rewrite lookup_insert_ne; [apply lookup_insert_eq|].
    intros E%append_inj_l. discriminate. }
  simpl. split; [done|]. split; [done|].
  split.
  { intros r (raw & _ & _ & ->)%Hin. apply project_fields. }
  split; [done|].
  split.
  { intros raw Hraw Hp. apply NoDup_count; [done|]. apply Hin.
    exists raw. by rewrite rows_scan. }
  split; [done|].
  intros Hd. rewrite Hd in Hlen. destruct (rows songs); [done|simpl in Hlen; lia].
Qed.

(** X8 on the sample file system, where [song_a] occurs twice. *)
Lemma songs_table_built_witness :
  sample_fs !! ("in/" +:+ "song_data") = Some sample_song_data ∧
  song_data_columns (schema sample_song_data) ∧
  ∃ fs' songs,
    process_song_data local_session "in/" "out/" sample_fs = (fs', Ok ()) ∧
    fs' !! ("out/" +:+ "songs.parquet") = Some songs ∧
    partitionBy songs = ["year"; "artist_id"] ∧
    NoDup (records songs) ∧
    length (filter (λ r, r = DF.project song_table_schema song_a) (records songs)) = 1%nat ∧
    (length (records songs) ≤ 4)%nat.
Proof.
  split; [reflexivity|]. split; [repeat constructor|].
  destruct (songs_table_built local_session "in/" "out/" sample_fs sample_song_data)
    as (fs' & songs & Hrun & Hs & _ & Hp & _ & Hnd & Hone & Hlen & _);
    [reflexivity|repeat constructor|].
  exists fs', songs. split; [exact Hrun|]. split; [exact Hs|]. split; [exact Hp|].
  split; [exact Hnd|]. split; [|exact Hlen].
  apply Hone; [in_list|repeat constructor].
Defined.

(** X9.  The User builder of lines 63-65, on events whose User columns
    resolve, gives a table with the five User columns whose rows are the
    projections of the events that have both [userId] and [firstName]; so
    no row has a null [userId] or [firstName], no row occurs twice, and
    there are no more rows than events. *)
Theorem users_table_built spark df :
  Forall (unique_in (columns df)) users_table_schema →
  ∃ t, users_table spark df = Ok t ∧
    columns t = users_table_schema ∧
    (∀ r, r ∈ rows t ↔
          ∃ e, e ∈ rows df ∧ keys_present ["userId"; "firstName"] e ∧
               r = DF.project users_table_schema e) ∧
    (∀ r, r ∈ rows t → get r "userId" ≠ Null ∧ get r "firstName" ≠ Null) ∧
    NoDup (rows t) ∧
    (length (rows t) ≤ length (rows df))%nat.
Proof.
  intros Hu.
  destruct (users_table_rows spark df Hu) as (t & Ht & Hin & Hnn).
  assert (Forall (unique_in (columns df)) ["userId"; "firstName"]) as Hk.
  { repeat constructor; eapply unique_in_sub; try exact Hu; in_list. }
  exists t. split; [done|].
  split; [exact (dimension_columns _ _ _ _ _ Ht)|].
  split; [done|]. split; [done|].
  split; [exact (dimension_NoDup _ _ _ _ _ Ht Hk Hu)|].
  exact (dimension_length _ _ _ _ _ Ht).
Qed.

(** X9 on two plays of one user and a play without [userId]. *)
Lemma users_table_built_witness :
  let df := frame log_data_schema [play_a; play_anonymous; play_a] in
  Forall (unique_in (columns df)) users_table_schema ∧
  ∃ t, users_table local_session df = Ok t ∧
    DF.project users_table_schema play_a ∈ rows t ∧
    (DF.project users_table_schema play_anonymous ∉ rows t) ∧
    NoDup (rows t) ∧ (length (rows t) ≤ 3)%nat.
Proof.
  intros df.
  assert (Forall (unique_in (columns df)) users_table_schema) as Hc by (repeat constructor).
  split; [exact Hc|].
  destruct (users_table_built local_session df Hc) as (t & Ht & _ & Hmem & Hnn & Hnd & Hlen).
  exists t. split; [exact Ht|].
  split.
  { apply Hmem. exists play_a. split; [in_list|]. split; [repeat constructor|done]. }
  split; [|by split].
  intros Hin. by destruct (Hnn _ Hin) as [Hn _].
Defined.

(** ** The join, the songplays expression and line 72 *)

Section JoinMore.
Implicit Types (e s r : Row) (c : string).

Lemma titled_null (songs : list Row) : titled Null songs = [].
Proof. unfold titled. induction songs as [|s songs IH]; [done|]. simpl. exact IH. Qed.

Lemma titled_elem_of (v : value) (s : Row) (songs : list Row) :
  s ∈ titled v songs ↔ s ∈ songs ∧ Sql.equal_to v (get s "title") = Bool true.
Proof.
  unfold titled. rewrite list_elem_of_In, filter_In, <- list_elem_of_In.
  by rewrite bool_decide_eq_true.
Qed.

Lemma equal_to_null_r (v : value) : Sql.equal_to v Null ≠ Bool true.
Proof. by destruct v. Qed.

Lemma get_set_field_ne c c' v r : c' ≠ c → get (set_field c v r) c' = get r c'.
Proof.
  intros Hne. unfold get. induction r as [|[k w] r IH]; simpl.
  - by rewrite decide_False.
  - case_decide as E; simpl.
    + subst k. by rewrite !decide_False by done.
    + case_decide; [done|]. exact IH.
Qed.
End JoinMore.

(** X10.  The rows of the join of line 92 are: for each event, its columns
    followed by those of each Song row whose [title] equals its [song], or
    by nulls when there is no such row.  Two strings are equal when they are
    the same string, letter case included; a null on either side equals
    nothing.  In a joined row the columns of the event read as in the
    event, all others as in the Song part. *)
Theorem joined_rows_characterised spark df songs_df :
  conforms df →
  "song" ∈ columns df → "title" ∈ columns songs_df →
  unique_in (columns df ++ columns songs_df) "song" →
  unique_in (columns df ++ columns songs_df) "title" →
  ∃ j, songplays_joined spark df songs_df = Ok j ∧
    columns j = columns df ++ columns songs_df ∧
    (∀ r, r ∈ rows j ↔
       ∃ e, e ∈ rows df ∧
         ((∃ s, s ∈ rows songs_df ∧
                Sql.equal_to (get e "song") (get s "title") = Bool true ∧ r = e ++ s) ∨
          ((∀ s, s ∈ rows songs_df →
                 Sql.equal_to (get e "song") (get s "title") ≠ Bool true) ∧
           r = e ++ null_row (columns songs_df)))) ∧
    (∀ a b, Sql.equal_to (Str a) (Str b) = Bool true ↔ a = b) ∧
    (∀ v, Sql.equal_to Null v ≠ Bool true ∧ Sql.equal_to v Null ≠ Bool true) ∧
    (∀ e s c, e ∈ rows df →
       (c ∈ columns df → get (e ++ s) c = get e c) ∧
       (c ∉ columns df → get (e ++ s) c = get s c)).
Proof.
  intros Hconf Hs Ht Us Ut.
  destruct (songplays_joined_rows spark df songs_df Hconf Hs Ht Us Ut) as (j & Hj & Hc & Hr).
  exists j. split; [done|]. split; [done|].
  split.
  { intros r. rewrite Hr, list_elem_of_bind. split.
    - intros (e & Hin & He). exists e. split; [done|].
      unfold left_join_rows in Hin.
      destruct (titled (get e "song") (rows songs_df)) as [|m ms] eqn:E.
      + right. apply list_elem_of_singleton in Hin. split; [|done].
        intros s Hsin Heq.
        assert (s ∈ titled (get e "song") (rows songs_df)) as H by (by apply titled_elem_of).
        rewrite E in H. by apply elem_of_nil in H.
      + left. apply list_elem_of_fmap in Hin as (s & -> & Hin).
        rewrite <- E in Hin. apply titled_elem_of in Hin as [? ?]. eauto.
    - intros (e & He & [(s & Hsin & Heq & ->)|[Hno ->]]); exists e; (split; [|done]).
      + unfold left_join_rows.
        assert (s ∈ titled (get e "song") (rows songs_df)) as H by (by apply titled_elem_of).
        destruct (titled (get e "song") (rows songs_df)) as [|m ms] eqn:E.
        * by apply elem_of_nil in H.
        * apply list_elem_of_fmap. eauto.
      + unfold left_join_rows.
        destruct (titled (get e "song") (rows songs_df)) as [|m ms] eqn:E; [left|].
        assert (m ∈ titled (get e "song") (rows songs_df)) as H by (rewrite E; left).
        apply titled_elem_of in H as [H1 H2]. by destruct (Hno m H1). }
  split.
  { intros a b. simpl. split.
    - intros [= H]. by apply bool_decide_eq_true in H.
    - intros ->. by rewrite bool_decide_true. }
  split.
  { intros v. split; [done|apply equal_to_null_r]. }
  intros e s c He. pose proof (proj1 (Forall_forall _ _) Hconf e He) as Hf.
  split; intros H; [apply get_app_l|apply get_app_r]; by rewrite Hf.
Qed.

(** X10 on a play of 'Title A' and a play of an unknown title, against
    Song rows titled 'Title A' and 'Title A (live)'. *)
Lemma joined_rows_characterised_witness :
  let df := frame log_data_schema [play_a; play_unknown] in
  let songs_df := song_dimension [song_a; song_a_live] in
  conforms df ∧ "song" ∈ columns df ∧ "title" ∈ columns songs_df ∧
  unique_in (columns df ++ columns songs_df) "song" ∧
  unique_in (columns df ++ columns songs_df) "title" ∧
  ∃ j, songplays_joined local_session df songs_df = Ok j ∧
    play_a ++ DF.project songs_columns song_a ∈ rows j ∧
    (play_a ++ DF.project songs_columns song_a_live ∉ rows j) ∧
    play_unknown ++ null_row songs_columns ∈ rows j.
Proof.
  intros df songs_df.
  assert (conforms df) as Hc by (repeat constructor).
  assert ("song" ∈ columns df) as Hs by in_list.
  assert ("title" ∈ columns songs_df) as Ht by in_list.
  assert (unique_in (columns df ++ columns songs_df) "song") as Us by reflexivity.
  assert (unique_in (columns df ++ columns songs_df) "title") as Ut by reflexivity.
  repeat (split; [assumption|]).
  destruct (joined_rows_characterised local_session df songs_df Hc Hs Ht Us Ut)
    as (j & Hj & _ & Hmem & _).
  exists j. split; [exact Hj|]. split; [|split].
  - apply Hmem. exists play_a. split; [in_list|]. left.
    exists (DF.project songs_columns song_a). split; [in_list|]. by split.
  - intros (e & He & [(s & Hin & Heq & E)|[_ E]])%Hmem.
    + apply app_inj_1 in E as [_ <-].
      * repeat (apply elem_of_cons in He as [->|He]; [discriminate Heq|]).
        by apply elem_of_nil in He.
      * repeat (apply elem_of_cons in He as [->|He]; [reflexivity|]).
        by apply elem_of_nil in He.
    + apply app_inj_1 in E as [_ E]; [discriminate E|].
      repeat (apply elem_of_cons in He as [->|He]; [reflexivity|]).
      by apply elem_of_nil in He.
  - apply Hmem. exists play_unknown. split; [in_list|]. right. split; [|done].
    intros s Hin.
    repeat (apply elem_of_cons in Hin as [->|Hin]; [discriminate|]).
    by apply elem_of_nil in Hin.
Defined.

(** X11.  The expression of the songplays table (lines 92-99) returns for no
    input; when the join resolves and the events have a [start_time], what
    it raises is the [TypeError] of [date_format] called without its
    [format] on line 94. *)
Theorem songplays_table_never_returns spark df songs_df :
  (∃ e, songplays_table spark df songs_df = Raise e) ∧
  ("song" ∈ columns df → "title" ∈ columns songs_df →
   unique_in (columns df ++ columns songs_df) "song" →
   unique_in (columns df ++ columns songs_df) "title" →
   "start_time" ∈ columns df →
   songplays_table spark df songs_df
   = Raise (TypeError "date_format() missing 1 required positional argument: 'format'")).
Proof.
  split; [apply songplays_table_raises|].
  intros Hs Ht Us Ut Hst.
  unfold songplays_table, songplays_keyed, songplays_joined, DF.getattr.
  rewrite !decide_True by done. simpl.
  unfold DF.join, DF.resolve. simpl.
  by rewrite (resolve_name_ok _ _ Us), (resolve_name_ok _ _ Ut).
Qed.

(** X11 on one play with its start time and one Song row. *)
Lemma songplays_table_never_returns_witness :
  songplays_table local_session
    (frame (log_data_schema ++ ["start_time"])
       [set_field "start_time" (start_time_of play_a) play_a])
    (song_dimension [song_a])
  = Raise (TypeError "date_format() missing 1 required positional argument: 'format'").
Proof.
  apply songplays_table_never_returns; [in_list|in_list|reflexivity|reflexivity|in_list].
Defined.

(** X12.  Line 72 keeps the events: with one [ts] column, the result has one
    row for each event, in each of which [start_time] is
    [to_timestamp(ts / 1000.0)] and every other column is as it was; the
    column is added last, or replaces a [start_time] that was there.
    Without a [ts] column, [df.ts] raises [AttributeError]. *)
Theorem with_start_time_keeps_events spark df :
  (unique_in (columns df) "ts" →
   ∃ df', with_start_time spark df = Ok df' ∧
     rows df' = (λ e, set_field "start_time" (start_time_of e) e) <$> rows df ∧
     length (rows df') = length (rows df) ∧
     columns df' = (if decide ("start_time" ∈ columns df) then columns df
                    else columns df ++ ["start_time"]) ∧
     (∀ e, get (set_field "start_time" (start_time_of e) e) "start_time" = start_time_of e) ∧
     (∀ e c, c ≠ "start_time" →
        get (set_field "start_time" (start_time_of e) e) c = get e c)) ∧
  ("ts" ∉ columns df → ∃ msg, with_start_time spark df = Raise (AttributeError msg)).
Proof.
  split.
  - intros Hts. unfold with_start_time, DF.getattr.
    rewrite decide_True by (by apply unique_in_elem). simpl.
    unfold DF.withColumn, DF.resolve. simpl.
    rewrite (resolve_name_ok _ _ Hts). simpl.
    eexists. split; [reflexivity|].
    assert (∀ cols, rows {| columns := cols;
                    partitions := DF.mapi_rows
                      (λ _ _ r, set_field "start_time" (start_time_of r) r) (partitions df) |}
            = (λ e, set_field "start_time" (start_time_of e) e) <$> rows df) as Hr.
    { intros cols. unfold rows. simpl.
      apply (rows_mapi_rows_const (λ e, set_field "start_time" (start_time_of e) e)). }
    split; [apply Hr|]. split; [by rewrite Hr, length_fmap|]. split; [done|].
    split; [intros; apply get_set_field|]. intros e c Hc. by apply get_set_field_ne.
  - intros Hts. unfold with_start_time, DF.getattr. rewrite decide_False by done.
    by eexists.
Qed.

(** X12 on two events of the sample log. *)
Lemma with_start_time_keeps_events_witness :
  ∃ df', with_start_time local_session (frame log_data_schema [play_a; home]) = Ok df' ∧
    length (rows df') = 2%nat ∧
    columns df' = log_data_schema ++ ["start_time"].
Proof.
  destruct (with_start_time_keeps_events local_session (frame log_data_schema [play_a; home]))
    as [H _].
  destruct H as (df' & Hdf & _ & Hlen & Hcols & _); [reflexivity|].
  exists df'. split; [exact Hdf|]. split; [exact Hlen|exact Hcols].
Defined.

(** ** The dates of the time table *)

Section CalendarRoundTrip.
Import Calendar.

Lemma days_from_civil_civil (day : Z) :
  let '(y, m, d) := civil day in days_from_civil y m d = day.
Proof.
  unfold civil, days_from_civil.
  assert (∃ z, day = z - 719468) as [z ->] by (exists (day + 719468); lia).
  replace (z - 719468 + 719468) with z by lia.
  set (era := z / 146097).
  assert (∃ doe, doe = z - era * 146097 ∧ 0 ≤ doe < 146097) as (doe & Hz & Hdoe).
  { eexists. split; [reflexivity|]. subst era. Z.div_mod_to_equations. lia. }
  rewrite <- Hz. clearbody era.
  set (yoe := (doe - doe / 1460 + doe / 36524 - doe / 146096) / 365).
  assert (0 ≤ yoe ≤ 399) as Hyoe by (subst yoe; Z.div_mod_to_equations; lia).
  assert (∃ doy, doy = doe - (365 * yoe + yoe / 4 - yoe / 100) ∧ 0 ≤ doy ≤ 365)
    as (doy & Hy & Hdoy).
  { eexists. split; [reflexivity|]. subst yoe. Z.div_mod_to_equations. lia. }
  rewrite <- Hy. clearbody yoe.
  set (mp := (5 * doy + 2) / 153).
  assert (0 ≤ mp ≤ 11) as Hmp by (subst mp; Z.div_mod_to_equations; lia).
  clearbody mp.
  set (m := if mp <? 10 then mp + 3 else mp - 9).
  assert ((if m <=? 2 then yoe + era * 400 + (if m <=? 2 then 1 else 0) - 1
           else yoe + era * 400 + (if m <=? 2 then 1 else 0)) = yoe + era * 400) as ->.
  { destruct (m <=? 2); lia. }
  assert ((if 2 <? m then m - 3 else m + 9) = mp) as ->.
  { subst m. destruct (mp <? 10) eqn:E; [apply Z.ltb_lt in E|apply Z.ltb_ge in E].
    - rewrite (proj2 (Z.ltb_lt 2 (mp + 3))) by lia. lia.
    - rewrite (proj2 (Z.ltb_ge 2 (mp - 9))) by lia. lia. }
  assert ((yoe + era * 400) / 400 = era) as -> by (Z.div_mod_to_equations; lia).
  replace (yoe + era * 400 - era * 400) with yoe by lia.
  lia.
Qed.

Lemma civil_inj (d1 d2 : Z) : civil d1 = civil d2 → d1 = d2.
Proof.
  intros H. pose proof (days_from_civil_civil d1) as H1.
  pose proof (days_from_civil_civil d2) as H2.
  rewrite H in H1. destruct (civil d2) as [[y m] d]. congruence.
Qed.

Lemma local_hours (tz : Z → Z) (μ : Z) :
  local_seconds tz μ / 3600 = local_day tz μ * 24 + hour_of tz μ.
Proof.
  unfold local_day, hour_of, SECONDS_PER_DAY.
  generalize (local_seconds tz μ). intros s. Z.div_mod_to_equations. lia.
Qed.
End CalendarRoundTrip.

(** X13.  In a row of the time table (lines 75-82) for an instant, [year],
    [month] and [day] are a date of the civil calendar that names the local
    day of the instant: the days from the epoch to that date are its local
    day, with [hour] they give its local hour, and [weekday] and [week] are
    the weekday and the ISO week of that date. *)
Theorem time_row_date_is_the_local_day (tz : Z → Z) (μ : Z) :
  let r := time_row tz (Timestamp μ) in
  ∃ y m d h,
    get r "year" = Long y ∧ get r "month" = Long m ∧ get r "day" = Long d ∧
    get r "hour" = Long h ∧
    Calendar.days_from_civil y m d = Calendar.local_day tz μ ∧
    Calendar.days_from_civil y m d * 24 + h = Calendar.local_seconds tz μ / 3600 ∧
    get r "weekday"
    = Long (Calendar.number_of_name (Calendar.name_of_day (Calendar.days_from_civil y m d))) ∧
    get r "week" = Long (Calendar.iso_week (Calendar.days_from_civil y m d)).
Proof.
  simpl.
  exists (Calendar.year_of tz μ), (Calendar.month_of tz μ),
         (Calendar.dayofmonth_of tz μ), (Calendar.hour_of tz μ).
  assert (Calendar.days_from_civil (Calendar.year_of tz μ) (Calendar.month_of tz μ)
            (Calendar.dayofmonth_of tz μ) = Calendar.local_day tz μ) as Hd.
  { unfold Calendar.year_of, Calendar.month_of, Calendar.dayofmonth_of.
    pose proof (days_from_civil_civil (Calendar.local_day tz μ)) as H.
    by destruct (Calendar.civil (Calendar.local_day tz μ)) as [[y m] d]. }
  rewrite Hd. repeat (split; [reflexivity|]).
  split; [by rewrite local_hours|]. done.
Qed.

(** X14.  Two rows of the time table that agree on [year], [month] and [day]
    are of the same local day, and so agree on [week] and [weekday]; if they
    also agree on [hour], their instants are in the same local hour. *)
Theorem time_rows_same_date_same_day (tz : Z → Z) (μ1 μ2 : Z) :
  let r1 := time_row tz (Timestamp μ1) in
  let r2 := time_row tz (Timestamp μ2) in
  get r1 "year" = get r2 "year" → get r1 "month" = get r2 "month" →
  get r1 "day" = get r2 "day" →
  Calendar.local_day tz μ1 = Calendar.local_day tz μ2 ∧
  get r1 "week" = get r2 "week" ∧ get r1 "weekday" = get r2 "weekday" ∧
  (get r1 "hour" = get r2 "hour" →
   Calendar.local_seconds tz μ1 / 3600 = Calendar.local_seconds tz μ2 / 3600).
Proof.
  intros r1 r2. subst r1 r2. unfold get. simpl.
  intros [= Hy] [= Hm] [= Hd].
  assert (Calendar.local_day tz μ1 = Calendar.local_day tz μ2) as Heq.
  { apply civil_inj. unfold Calendar.year_of, Calendar.month_of, Calendar.dayofmonth_of in *.
    destruct (Calendar.civil (Calendar.local_day tz μ1)) as [[y m] d].
    destruct (Calendar.civil (Calendar.local_day tz μ2)) as [[y' m'] d'].
    simpl in *. congruence. }
  split; [done|].
  unfold Calendar.weekofyear_of, Calendar.dayofweek_of. rewrite Heq.
  split; [done|]. split; [done|].
  intros [= Hh]. rewrite !local_hours. congruence.
Qed.

(** X14 on two instants five minutes apart. *)
Lemma time_rows_same_date_same_day_witness :
  let utc : Z → Z := λ _, 0 in
  let r1 := time_row utc (Timestamp 1541440000000000) in
  let r2 := time_row utc (Timestamp 1541440300000000) in
  get r1 "year" = get r2 "year" ∧ get r1 "month" = get r2 "month" ∧
  get r1 "day" = get r2 "day" ∧
  Calendar.local_day utc 1541440000000000 = Calendar.local_day utc 1541440300000000 ∧
  get r1 "week" = get r2 "week" ∧ get r1 "weekday" = get r2 "weekday".
Proof.
  intros utc r1 r2.
  split; [reflexivity|]. split; [reflexivity|]. split; [reflexivity|].
  destruct (time_rows_same_date_same_day utc 1541440000000000 1541440300000000)
    as (Hd & Hw & Hwd & _); [reflexivity|reflexivity|reflexivity|].
  split; [exact Hd|]. split; [exact Hw|exact Hwd].
Defined.

(** ** The Song table read back *)

Section ReadBack.
Implicit Types (r s : Row) (cols : list string).





End ReadBack.



(** ** The writes of the users and time tables *)

Section LogWrites.
Lemma time_table_cases spark df :
  (unique_in (columns df) "start_time" ∧
   ∃ t, time_table spark df = Ok t ∧ columns t = time_table_schema)
  ∨ (¬ unique_in (columns df) "start_time" ∧
     ∃ msg, time_table spark df = Raise (AnalysisException msg)).
Proof.
  destruct (resolve_name_cases (columns df) "start_time") as [[Hr U]|(msg & Hr & U)].
  - left. split; [done|].
    destruct (time_table_rows spark df U) as (t & Ht & Hc & _). by exists t.
  - right. split; [done|]. exists msg.
    unfold time_table, DF.select. simpl. by rewrite Hr.
Qed.
End LogWrites.

(** X16.  The writes of the users table (lines 67-69) and of the time table
    (lines 84-86) cannot fail on a table its builder returned: the table has
    the columns it is partitioned by, [gender] for one, [year] and [month]
    for the other, and the path then holds the table, with the schema of
    its builder.  The time table itself is returned exactly when
    [start_time] resolves in the events; otherwise the select of line 75
    raises [AnalysisException]. *)
Theorem users_and_time_writes_resolve spark df path fs :
  (∀ t, users_table spark df = Ok t →
     IO.write_parquet overwrite ["gender"] path t fs
     = (<[path := {| partitionBy := ["gender"]; schema := users_table_schema;
                     records := rows t |}]> fs, Ok ())) ∧
  (∀ t, time_table spark df = Ok t →
     IO.write_parquet overwrite ["year"; "month"] path t fs
     = (<[path := {| partitionBy := ["year"; "month"]; schema := time_table_schema;
                     records := rows t |}]> fs, Ok ())) ∧
  ((∃ t, time_table spark df = Ok t) ↔ unique_in (columns df) "start_time") ∧
  ((∀ t, time_table spark df ≠ Ok t) →
     ∃ msg, time_table spark df = Raise (AnalysisException msg)).
Proof.
  split; [|split; [|split]].
  - intros t Ht. apply dimension_columns in Ht.
    rewrite write_parquet_overwrite by (rewrite Ht; repeat constructor).
    by rewrite Ht.
  - intros t Ht.
    destruct (time_table_cases spark df) as [[_ (t' & Ht' & Hc)]|[_ [msg Hm]]]; [|congruence].
    assert (t' = t) as -> by congruence.
    rewrite write_parquet_overwrite by (rewrite Hc; repeat constructor).
    by rewrite Hc.
  - destruct (time_table_cases spark df) as [[U (t & Ht & _)]|[U [msg Hm]]].
    + split; [done|]. intros _. by exists t.
    + split; [|done]. intros [t Ht]. congruence.
  - intros H.
    destruct (time_table_cases spark df) as [[_ (t & Ht & _)]|[_ Hm]]; [|done].
    by destruct (H t).
Qed.
